(** * FastAPI application monitoring: a shallow embedding

    The service of [app/main.py], [app/crud.py], [app/schemas.py],
    [app/models.py] and [app/database.py]: a CRUD API over one table,
    instrumented with Prometheus metrics through an HTTP middleware and two
    SQLAlchemy cursor-execution listeners.

    Conventions of the embedding:
    - Python [str] values are [string]s of 8-bit characters (code points
      below 256); [str.strip], [str.split] and [str.lower] are given on
      that range.
    - Python exceptions are a value of [exn] in a [result]; a function that
      mutates shared state returns the new state next to its result, so a
      mutation made before an exception is raised stays visible.
    - Readings of [time.time()] are integers (nanoseconds); the clock is an
      input of the functions that read it.
    - The process-wide metric objects of [main.py] are the fields of one
      record [Metrics], which every instrumented function threads. *)

From Stdlib Require Import Ascii ZArith.
From stdpp Require Import gmap strings list fin_maps sorting pretty.

Open Scope Z_scope.

(** ** Exceptions and results *)

Inductive exn : Type :=
  | IndexError                                   (* list index out of range *)
  | ValueError                                   (* wrong number of values to unpack *)
  | HTTPException (status : Z) (detail : string) (* fastapi.HTTPException *)
  | DataError.                                   (* the database refused a value *)

Inductive result (A : Type) : Type :=
  | Ok (a : A)
  | Raise (e : exn).
Arguments Ok {A} a.
Arguments Raise {A} e.

(** ** Python string methods used by the listeners *)

Module PyStr.

(** [c.isspace()] for a character below U+0100: the ASCII controls
    TAB..CR and FS..US, the space, NEL (U+0085) and NBSP (U+00A0). *)
Definition isspace (c : ascii) : bool :=
  let n := N_of_ascii c in
  (((9 <=? n) && (n <=? 13)) || ((28 <=? n) && (n <=? 32))
   || (n =? 133) || (n =? 160))%N.

(** [c.lower()]: A..Z and the Latin-1 capitals U+00C0..U+00DE (without
    the multiplication sign U+00D7) move up by 32. *)
Definition lower_char (c : ascii) : ascii :=
  let n := N_of_ascii c in
  if (((65 <=? n) && (n <=? 90))
      || ((192 <=? n) && (n <=? 222) && negb (n =? 215)))%N
  then ascii_of_N (n + 32) else c.

Fixpoint lower (s : string) : string :=
  match s with
  | EmptyString => EmptyString
  | String c s' => String (lower_char c) (lower s')
  end.

Fixpoint lstrip (s : string) : string :=
  match s with
  | EmptyString => EmptyString
  | String c s' => if isspace c then lstrip s' else s
  end.

Fixpoint rstrip (s : string) : string :=
  match s with
  | EmptyString => EmptyString
  | String c s' =>
      match rstrip s' with
      | EmptyString => if isspace c then EmptyString else String c EmptyString
      | r => String c r
      end
  end.

(** [s.strip()] *)
Definition strip (s : string) : string := lstrip (rstrip s).

(** [s.split()] with no separator: the maximal runs of non-whitespace
    characters, in order; no empty token is produced. *)
Fixpoint split (s : string) : list string :=
  match s with
  | EmptyString => []
  | String c s' =>
      if isspace c then split s'
      else match s' with
           | EmptyString => [String c EmptyString]
           | String c' _ =>
               if isspace c' then String c EmptyString :: split s'
               else match split s' with
                    | t :: ts => String c t :: ts
                    | [] => [String c EmptyString]
                    end
           end
  end.

(** All characters of [s] satisfy [p]. *)
Fixpoint all (p : ascii -> bool) (s : string) : bool :=
  match s with
  | EmptyString => true
  | String c s' => p c && all p s'
  end.

End PyStr.

(** ** The Prometheus client objects

    A labelled metric is a dictionary from the tuple of label values (each
    passed through [str]) to its child series; [.labels(...)] creates the
    child at zero on first use. *)

Module prometheus.

(** A histogram child: one counter per upper bound, the last one for
    [+Inf], and the running sum. The counts are per bucket; they are
    accumulated when the registry is collected. *)
Record HistogramSeries : Type := mkHist {
  h_buckets : list Z;
  h_sum : Z
}.

Definition new_histogram (bounds : list Z) : HistogramSeries :=
  mkHist (replicate (S (length bounds)) 0) 0.

(** The loop of [Histogram.observe]: the first bucket whose bound is at
    least the amount is incremented, then the loop breaks. *)
Fixpoint observe_buckets (bounds counts : list Z) (amount : Z) : list Z :=
  match counts with
  | [] => []
  | c :: cs =>
      match bounds with
      | [] => (c + 1) :: cs
      | b :: bs =>
          if amount <=? b then (c + 1) :: cs
          else c :: observe_buckets bs cs amount
      end
  end.

Definition observe (bounds : list Z) (amount : Z) (h : HistogramSeries)
  : HistogramSeries :=
  mkHist (observe_buckets bounds (h_buckets h) amount) (h_sum h + amount).

(** The cumulative bucket values and the count, as exposed on collection. *)
Fixpoint cumulative (acc : Z) (counts : list Z) : list Z :=
  match counts with
  | [] => []
  | c :: cs => (acc + c) :: cumulative (acc + c) cs
  end.

Definition h_count (h : HistogramSeries) : Z := foldr Z.add 0 (h_buckets h).

(** [counter.labels(k).inc()] *)
Definition counter_inc (k : list string) (c : gmap (list string) Z)
  : gmap (list string) Z :=
  <[k := default 0 (c !! k) + 1]> c.

(** [histogram.labels(k).observe(amount)] *)
Definition histogram_observe (bounds : list Z) (k : list string) (amount : Z)
    (h : gmap (list string) HistogramSeries)
  : gmap (list string) HistogramSeries :=
  <[k := observe bounds amount (default (new_histogram bounds) (h !! k))]> h.

Definition counter_value (k : list string) (c : gmap (list string) Z) : Z :=
  default 0 (c !! k).

End prometheus.

(** Bucket bounds, in nanoseconds. [REQUEST_LATENCY] declares its own;
    [DB_QUERY_DURATION] takes the client's default buckets. *)
Definition seconds (num den : Z) : Z := num * 1000000000 / den.

Definition REQUEST_LATENCY_buckets : list Z :=
  [seconds 1 10; seconds 3 10; seconds 5 10; seconds 1 1; seconds 3 1; seconds 5 1].

Definition DEFAULT_BUCKETS : list Z :=
  [seconds 5 1000; seconds 1 100; seconds 25 1000; seconds 5 100;
   seconds 75 1000; seconds 1 10; seconds 25 100; seconds 5 10;
   seconds 75 100; seconds 1 1; seconds 25 10; seconds 5 1;
   seconds 75 10; seconds 10 1].

(** The metric objects declared at module level in [main.py]. *)
Record Metrics : Type := mkMetrics {
  REQUEST_COUNT : gmap (list string) Z;
  REQUEST_LATENCY : gmap (list string) prometheus.HistogramSeries;
  IN_PROGRESS : Z;
  DB_QUERIES_TOTAL : gmap (list string) Z;
  DB_QUERY_DURATION : gmap (list string) prometheus.HistogramSeries;
  DB_POOL_CHECKED_OUT : Z;
  DB_POOL_IDLE : Z;
  DB_POOL_WAITERS : Z
}.

(** The registry at process start: no child series, every gauge at zero. *)
Definition initial_metrics : Metrics := mkMetrics ∅ ∅ 0 ∅ ∅ 0 0 0.

Definition with_REQUEST_COUNT (f : gmap (list string) Z -> gmap (list string) Z)
    (m : Metrics) : Metrics :=
  mkMetrics (f (REQUEST_COUNT m)) (REQUEST_LATENCY m) (IN_PROGRESS m)
    (DB_QUERIES_TOTAL m) (DB_QUERY_DURATION m)
    (DB_POOL_CHECKED_OUT m) (DB_POOL_IDLE m) (DB_POOL_WAITERS m).

Definition with_REQUEST_LATENCY
    (f : gmap (list string) prometheus.HistogramSeries ->
         gmap (list string) prometheus.HistogramSeries)
    (m : Metrics) : Metrics :=
  mkMetrics (REQUEST_COUNT m) (f (REQUEST_LATENCY m)) (IN_PROGRESS m)
    (DB_QUERIES_TOTAL m) (DB_QUERY_DURATION m)
    (DB_POOL_CHECKED_OUT m) (DB_POOL_IDLE m) (DB_POOL_WAITERS m).

Definition with_IN_PROGRESS (f : Z -> Z) (m : Metrics) : Metrics :=
  mkMetrics (REQUEST_COUNT m) (REQUEST_LATENCY m) (f (IN_PROGRESS m))
    (DB_QUERIES_TOTAL m) (DB_QUERY_DURATION m)
    (DB_POOL_CHECKED_OUT m) (DB_POOL_IDLE m) (DB_POOL_WAITERS m).

Definition with_DB_QUERIES_TOTAL
    (f : gmap (list string) Z -> gmap (list string) Z) (m : Metrics) : Metrics :=
  mkMetrics (REQUEST_COUNT m) (REQUEST_LATENCY m) (IN_PROGRESS m)
    (f (DB_QUERIES_TOTAL m)) (DB_QUERY_DURATION m)
    (DB_POOL_CHECKED_OUT m) (DB_POOL_IDLE m) (DB_POOL_WAITERS m).

Definition with_DB_QUERY_DURATION
    (f : gmap (list string) prometheus.HistogramSeries ->
         gmap (list string) prometheus.HistogramSeries)
    (m : Metrics) : Metrics :=
  mkMetrics (REQUEST_COUNT m) (REQUEST_LATENCY m) (IN_PROGRESS m)
    (DB_QUERIES_TOTAL m) (f (DB_QUERY_DURATION m))
    (DB_POOL_CHECKED_OUT m) (DB_POOL_IDLE m) (DB_POOL_WAITERS m).

(** The three [Gauge.set] calls of the scrape endpoint. A gauge holds a
    float: [set] raises [OverflowError] for an integer from
    2^1024 - 2^970 on, which the model leaves out; it keeps the integer. *)
Definition set_pool_gauges (in_use free waiting : Z) (m : Metrics) : Metrics :=
  mkMetrics (REQUEST_COUNT m) (REQUEST_LATENCY m) (IN_PROGRESS m)
    (DB_QUERIES_TOTAL m) (DB_QUERY_DURATION m) in_use free waiting.

(** ** The query interceptor ([main.py], lines 68-78) *)

(** The execution context of one statement; [before_cursor_execute] stores
    the clock reading on it. *)
Record ExecutionContext : Type := mkContext { query_start_time : Z }.

Definition before_cursor_execute (now : Z) : ExecutionContext := mkContext now.

(** The operations that are metered. *)
Definition metered_operations : list string :=
  ["select"; "insert"; "update"; "delete"].

(** [after_cursor_execute]: [now] is the clock reading taken on entry.
    Indexing the token list at 0 raises [IndexError] when the list is
    empty; nothing has been recorded at that point. *)
Definition after_cursor_execute (statement : string) (context : ExecutionContext)
    (now : Z) (m : Metrics) : Metrics * result unit :=
  let duration := now - query_start_time context in
  match PyStr.split (PyStr.strip statement) with
  | [] => (m, Raise IndexError)
  | tok :: _ =>
      let op := PyStr.lower tok in
      if bool_decide (op ∈ metered_operations) then
        let m1 := with_DB_QUERIES_TOTAL (prometheus.counter_inc [op]) m in
        let m2 := with_DB_QUERY_DURATION
                    (prometheus.histogram_observe DEFAULT_BUCKETS [op] duration) m1 in
        (m2, Ok tt)
      else (m, Ok tt)
  end.

(** ** Regular expressions ([re.search])

    A backtracking matcher for the fragment the scrape endpoint uses:
    literal characters, a greedy capturing group [(cls+)] and a greedy
    [cls*]. Greedy repetition takes the longest run first and gives
    characters back one at a time when the rest of the pattern fails. *)

Module re.

Inductive node : Type :=
  | Lit (c : ascii)
  | Star (cls : ascii -> bool)
  | Group (cls : ascii -> bool).

(** [\d] on the modelled range: the decimal digits. *)
Definition digit (c : ascii) : bool :=
  let n := N_of_ascii c in ((48 <=? n) && (n <=? 57))%N.

(** [.] without DOTALL: any character but the line feed. *)
Definition dot (c : ascii) : bool := negb (N_of_ascii c =? 10)%N.

Fixpoint lits (s : string) : list node :=
  match s with
  | EmptyString => []
  | String c s' => Lit c :: lits s'
  end.

Fixpoint greedy {R : Type} (cls : ascii -> bool)
    (k : string -> string -> option R) (taken s : string) : option R :=
  match s with
  | String c s' =>
      if cls c then
        match greedy cls k (taken +:+ String c EmptyString) s' with
        | Some r => Some r
        | None => k taken s
        end
      else k taken s
  | EmptyString => k taken s
  end.

(** Match the pattern at the start of [s]; the result is the list of the
    captured groups, in order. *)
Fixpoint match_here (p : list node) (s : string) (groups : list string)
  : option (list string) :=
  match p with
  | [] => Some groups
  | Lit c :: p' =>
      match s with
      | String c' s' => if Ascii.eqb c c' then match_here p' s' groups else None
      | EmptyString => None
      end
  | Star cls :: p' => greedy cls (fun _ rest => match_here p' rest groups) EmptyString s
  | Group cls :: p' =>
      match s with
      | String c s' =>
          if cls c then
            greedy cls (fun taken rest => match_here p' rest (groups ++ [taken]))
              (String c EmptyString) s'
          else None
      | EmptyString => None
      end
  end.

(** [re.search(p, s)]: the match at the leftmost position that has one. *)
Fixpoint search (p : list node) (s : string) : option (list string) :=
  match match_here p s [] with
  | Some groups => Some groups
  | None =>
      match s with
      | String _ s' => search p s'
      | EmptyString => None
      end
  end.

End re.

(** [int(s)] on a string of decimal digits: its decimal value. CPython
    converts a string of up to 4300 digits; it raises [ValueError] on a
    longer one, which the model leaves out. *)
Fixpoint int_from (acc : Z) (s : string) : Z :=
  match s with
  | EmptyString => acc
  | String c s' => int_from (10 * acc + (Z.of_N (N_of_ascii c) - 48)) s'
  end.

Definition int (s : string) : Z := int_from 0 s.

(** ** HTTP requests and responses *)

Module models.
(** The mapped class [UserData] of [models.py]. *)
Record UserData : Type := mkUserData {
  id : Z;
  name : string;
  email : string;
  message : option string;
  created_at : Z
}.
End models.

(** One line of the text exposition: a sample of a metric. Durations are in
    nanoseconds. *)
Record Sample : Type := mkSample {
  sample_name : string;
  sample_labels : list (string * string);
  sample_value : Z
}.

Inductive Body : Type :=
  | Text (samples : list Sample)
  | Entity (item : models.UserData)
  | Entities (items : list models.UserData)
  | Detail (detail : string).

Record Request : Type := mkRequest {
  method : string;   (* request.method *)
  path : string      (* request.url.path *)
}.

Record Response : Type := mkResponse {
  status_code : Z;
  body : Body;
  media_type : string
}.

(** FastAPI's handler for [HTTPException], which runs inside [call_next]:
    the exception becomes a response with its status and detail. Any other
    exception propagates. *)
Definition http_exception_handler (ok_status : Z) (r : result Body)
  : result Response :=
  match r with
  | Ok b => Ok (mkResponse ok_status b "application/json")
  | Raise (HTTPException st d) => Ok (mkResponse st (Detail d) "application/json")
  | Raise e => Raise e
  end.

(** ** The request interceptor ([main.py], lines 89-104)

    [call_next] is the rest of the application as the metric objects see
    it. [start] and [now] are the two clock readings. When [call_next]
    raises, the exception leaves the function at that line: the statements
    after the [await] do not run. *)
Definition metrics_middleware (request : Request)
    (call_next : Metrics -> Metrics * result Response)
    (start now : Z) (m : Metrics) : Metrics * result Response :=
  let m1 := with_IN_PROGRESS (fun v => v + 1) m in
  match call_next m1 with
  | (m2, Raise e) => (m2, Raise e)
  | (m2, Ok response) =>
      let latency := now - start in
      let k := [method request; path request; pretty (status_code response)] in
      let m3 := with_REQUEST_COUNT (prometheus.counter_inc k) m2 in
      let m4 := with_REQUEST_LATENCY
                  (prometheus.histogram_observe REQUEST_LATENCY_buckets k latency) m3 in
      (with_IN_PROGRESS (fun v => v - 1) m4, Ok response)
  end.

(** ** The registry's exposition ([generate_latest])

    The samples of the metrics declared in [main.py], metric by metric in
    the order of declaration. The samples of one metric come in no
    particular order (here: the order of the map's keys). The client's
    default process and platform collectors and the [_created] samples are
    left out. *)

Definition counter_samples (name : string) (labelnames : list string)
    (c : gmap (list string) Z) : list Sample :=
  (fun kv => mkSample name (zip labelnames kv.1) kv.2) <$> map_to_list c.

Definition histogram_series_samples (name : string) (labelnames le : list string)
    (kv : list string * prometheus.HistogramSeries) : list Sample :=
  let labels := zip labelnames kv.1 in
  ((fun lv => mkSample (name +:+ "_bucket") (labels ++ [("le", lv.1)]) lv.2)
     <$> zip le (prometheus.cumulative 0 (prometheus.h_buckets kv.2)))
  ++ [mkSample (name +:+ "_count") labels (prometheus.h_count kv.2);
      mkSample (name +:+ "_sum") labels (prometheus.h_sum kv.2)].

Definition histogram_samples (name : string) (labelnames le : list string)
    (h : gmap (list string) prometheus.HistogramSeries) : list Sample :=
  mbind (histogram_series_samples name labelnames le) (map_to_list h).

Definition gauge_samples (name : string) (v : Z) : list Sample :=
  [mkSample name [] v].

Definition REQUEST_labelnames : list string := ["method"; "endpoint"; "http_status"].
Definition DB_labelnames : list string := ["operation"].

Definition REQUEST_LATENCY_le : list string :=
  ["0.1"; "0.3"; "0.5"; "1.0"; "3.0"; "5.0"; "+Inf"].
Definition DEFAULT_le : list string :=
  ["0.005"; "0.01"; "0.025"; "0.05"; "0.075"; "0.1"; "0.25"; "0.5"; "0.75";
   "1.0"; "2.5"; "5.0"; "7.5"; "10.0"; "+Inf"].

Definition generate_latest (m : Metrics) : list Sample :=
  counter_samples "http_requests_total" REQUEST_labelnames (REQUEST_COUNT m)
  ++ histogram_samples "http_request_duration_seconds" REQUEST_labelnames
       REQUEST_LATENCY_le (REQUEST_LATENCY m)
  ++ gauge_samples "inprogress_requests" (IN_PROGRESS m)
  ++ counter_samples "db_queries_total" DB_labelnames (DB_QUERIES_TOTAL m)
  ++ histogram_samples "db_query_duration_seconds" DB_labelnames
       DEFAULT_le (DB_QUERY_DURATION m)
  ++ gauge_samples "db_pool_checked_out_connections" (DB_POOL_CHECKED_OUT m)
  ++ gauge_samples "db_pool_idle_connections" (DB_POOL_IDLE m)
  ++ gauge_samples "db_pool_waiters" (DB_POOL_WAITERS m).

(** The counter samples of an exposition: the two [Counter] metrics. *)
Definition is_counter_sample (s : Sample) : bool :=
  bool_decide (sample_name s = "http_requests_total"
               ∨ sample_name s = "db_queries_total").

Definition counter_values (samples : list Sample) : list Sample :=
  filter (fun s => is_counter_sample s = true) samples.

(** ** The scrape endpoint ([main.py], lines 130-145) *)

Definition CONTENT_TYPE_LATEST : string :=
  "text/plain; version=0.0.4; charset=utf-8".

Definition pool_pattern : list re.node :=
  re.lits "Connections in use: " ++ [re.Group re.digit; re.Star re.dot]
  ++ re.lits "Free connections: " ++ [re.Group re.digit; re.Star re.dot]
  ++ re.lits "Waiting connections: " ++ [re.Group re.digit].

(** [status] is what [engine.pool.status()] returned. Unpacking the groups
    into three names raises [ValueError] unless there are three of them. *)
Definition metrics (status : string) (m : Metrics) : Metrics * result Response :=
  let updated :=
    match re.search pool_pattern status with
    | Some groups =>
        match int <$> groups with
        | [in_use; free; waiting] => Ok (set_pool_gauges in_use free waiting m)
        | _ => Raise ValueError
        end
    | None => Ok m
    end in
  match updated with
  | Ok m' => (m', Ok (mkResponse 200 (Text (generate_latest m')) CONTENT_TYPE_LATEST))
  | Raise e => (m, Raise e)
  end.

(** A scrape as the service handles it: the endpoint behind the request
    interceptor. *)
Definition scrape (status : string) (start now : Z) (m : Metrics)
  : Metrics * result Response :=
  metrics_middleware (mkRequest "GET" "/metrics") (metrics status) start now m.

(** ** Request schemas ([schemas.py]) *)

Module schemas.

(** [UserDataCreate]: the fields of [UserDataBase]. *)
Record UserDataCreate : Type := mkUserDataCreate {
  name : string;
  email : string;
  message : option string   (* str | None = None *)
}.

(** An item of [data.dict().items()]: a field of the schema with its
    value. *)
Inductive item : Type :=
  | name_item (value : string)
  | email_item (value : string)
  | message_item (value : option string).

Definition dict (data : UserDataCreate) : list item :=
  [name_item (name data); email_item (email data); message_item (message data)].

(** A JSON value of a request body. *)
Inductive json : Type :=
  | JNull
  | JString (s : string)
  | JNumber (n : Z)
  | JBool (b : bool).

Section validation.
(** The field validators of pydantic and of its e-mail type: each
    returns the validated value, or nothing when it rejects. *)
Variable str_validator : json -> option string.
Variable email_validator : json -> option string.

(** Building the model from the body's object: [name] and [email] are
    required; [message] takes its default [None] when the key is
    missing, and [None] is also what an explicit null gives. *)
Definition validate (payload : gmap string json) : option UserDataCreate :=
  name ← payload !! "name" ≫= str_validator;
  email ← payload !! "email" ≫= email_validator;
  message ← match payload !! "message" with
            | None => Some None
            | Some JNull => Some None
            | Some v => Some <$> str_validator v
            end;
  Some (mkUserDataCreate name email message).
End validation.

End schemas.

(** [setattr(item, field, value)] on a mapped object, for the fields of the
    request schema. *)
Definition setattr (item : models.UserData) (field : schemas.item) : models.UserData :=
  match field with
  | schemas.name_item v =>
      models.mkUserData (models.id item) v (models.email item)
        (models.message item) (models.created_at item)
  | schemas.email_item v =>
      models.mkUserData (models.id item) (models.name item) v
        (models.message item) (models.created_at item)
  | schemas.message_item v =>
      models.mkUserData (models.id item) (models.name item) (models.email item)
        v (models.created_at item)
  end.

(** ** The database ([models.py], [database.py])

    The table [user_data], keyed by its primary key [id]; a row holds the
    other columns. [user_data_id_seq] is the last value the key's sequence
    gave out. [created_at] is a timestamp in microseconds. *)

Record Row : Type := mkRow {
  row_name : string;
  row_email : string;
  row_message : option string;
  row_created_at : Z
}.

Record Database : Type := mkDatabase {
  user_data : gmap Z Row;
  user_data_id_seq : Z
}.

Definition load (item_id : Z) (r : Row) : models.UserData :=
  models.mkUserData item_id (row_name r) (row_email r) (row_message r)
    (row_created_at r).

Definition row_of (item : models.UserData) : Row :=
  mkRow (models.name item) (models.email item) (models.message item)
    (models.created_at item).

(** A string the driver can send: one without the character U+0000. *)
Definition nul_free (s : string) : bool :=
  PyStr.all (fun c => negb (N_of_ascii c =? 0)%N) s.

Definition nul_free_fields (item : models.UserData) : bool :=
  nul_free (models.name item) && nul_free (models.email item)
  && from_option nul_free true (models.message item).

(** What a write of the row needs when it is flushed: the driver refuses a
    string that holds U+0000 before the statement is sent, and the
    database rejects a value longer than its column type, [String(100)]
    and [String(255)]. *)
Definition fits (item : models.UserData) : bool :=
  bool_decide (String.length (models.name item) ≤ 100
               ∧ String.length (models.email item) ≤ 255)%nat
  && nul_free_fields item.

(** The exception a refused write raises: the driver's [ValueError] for
    U+0000, else the database's error for the length. *)
Definition refusal (item : models.UserData) : exn :=
  if nul_free_fields item then DataError else ValueError.

(** [ORDER BY created_at DESC]. The order among rows with equal timestamps
    is whatever the sort produces. *)
Definition created_at_desc (a b : models.UserData) : Prop :=
  models.created_at b ≤ models.created_at a.

#[global] Instance created_at_desc_dec : RelDecision created_at_desc :=
  fun a b => decide (models.created_at b ≤ models.created_at a).

Definition order_by_created_at_desc (items : list models.UserData)
  : list models.UserData :=
  merge_sort created_at_desc items.

(** All rows of the table as mapped objects. *)
Definition query_all (db : Database) : list models.UserData :=
  (fun kr => load kr.1 kr.2) <$> map_to_list (user_data db).

(** [db.query(UserData).filter(UserData.id == item_id).first()] *)
Definition query_first (db : Database) (item_id : Z) : option models.UserData :=
  load item_id <$> user_data db !! item_id.

(** ** The CRUD functions ([crud.py]) *)

Module crud.

(** PostgreSQL, the configured database, takes [OFFSET] and [LIMIT] as
    64-bit integers that are not negative: for a negative value, or one
    from 2^63 on, the query raises instead of returning rows. *)
Definition get_user_data (db : Database) (skip limit : Z)
  : result (list models.UserData) :=
  if bool_decide (skip < 0 ∨ limit < 0 ∨ 2 ^ 63 ≤ skip ∨ 2 ^ 63 ≤ limit)
  then Raise DataError
  else Ok (take (Z.to_nat limit)
             (drop (Z.to_nat skip) (order_by_created_at_desc (query_all db)))).

(** [now] is the server time that fills [created_at]. *)
Definition create_user_data (db : Database) (data : schemas.UserDataCreate)
    (now : Z) : Database * result models.UserData :=
  let item := models.mkUserData (user_data_id_seq db + 1)
                (schemas.name data) (schemas.email data)
                (schemas.message data) now in
  if fits item then
    (mkDatabase (<[models.id item := row_of item]> (user_data db)) (models.id item),
     Ok item)
  else (db, Raise (refusal item)).

Definition update_user_data (db : Database) (item_id : Z)
    (data : schemas.UserDataCreate) : Database * result (option models.UserData) :=
  match query_first db item_id with
  | None => (db, Ok None)
  | Some item =>
      let item := foldl setattr item (schemas.dict data) in
      if fits item then
        (mkDatabase (<[models.id item := row_of item]> (user_data db))
           (user_data_id_seq db),
         Ok (Some item))
      else (db, Raise (refusal item))
  end.

Definition delete_user_data (db : Database) (item_id : Z)
  : Database * result (option models.UserData) :=
  match query_first db item_id with
  | None => (db, Ok None)
  | Some item =>
      (mkDatabase (delete (models.id item) (user_data db)) (user_data_id_seq db),
       Ok (Some item))
  end.

End crud.

(** ** The CRUD endpoints ([main.py], lines 107-127) *)

Definition create_data (data : schemas.UserDataCreate) (now : Z) (db : Database)
  : Database * result Body :=
  match crud.create_user_data db data now with
  | (db', Ok item) => (db', Ok (Entity item))
  | (db', Raise e) => (db', Raise e)
  end.

Definition read_data (skip limit : Z) (db : Database) : Database * result Body :=
  match crud.get_user_data db skip limit with
  | Ok items => (db, Ok (Entities items))
  | Raise e => (db, Raise e)
  end.

Definition update_data (item_id : Z) (data : schemas.UserDataCreate) (db : Database)
  : Database * result Body :=
  match crud.update_user_data db item_id data with
  | (db', Ok None) => (db', Raise (HTTPException 404 "Item not found"))
  | (db', Ok (Some updated)) => (db', Ok (Entity updated))
  | (db', Raise e) => (db', Raise e)
  end.

Definition delete_data (item_id : Z) (db : Database) : Database * result Body :=
  match crud.delete_user_data db item_id with
  | (db', Ok None) => (db', Raise (HTTPException 404 "Item not found"))
  | (db', Ok (Some deleted)) => (db', Ok (Entity deleted))
  | (db', Raise e) => (db', Raise e)
  end.

(** The routes as a client sees them: the endpoint's result turned into a
    response ([POST] answers 201, the others 200). *)
Definition POST_data (data : schemas.UserDataCreate) (now : Z) (db : Database)
  : Database * result Response :=
  let '(db', r) := create_data data now db in (db', http_exception_handler 201 r).

Definition GET_data (skip limit : Z) (db : Database) : Database * result Response :=
  let '(db', r) := read_data skip limit db in (db', http_exception_handler 200 r).

Definition PUT_data (item_id : Z) (data : schemas.UserDataCreate) (db : Database)
  : Database * result Response :=
  let '(db', r) := update_data item_id data db in (db', http_exception_handler 200 r).

Definition DELETE_data (item_id : Z) (db : Database) : Database * result Response :=
  let '(db', r) := delete_data item_id db in (db', http_exception_handler 200 r).

(** ** Vocabulary of the specification *)

(** The leading keyword of a statement, in the specification's words: the
    first whitespace-delimited token, lower-cased. There is none when the
    statement holds no token. *)
Fixpoint take_token (s : string) : string :=
  match s with
  | EmptyString => EmptyString
  | String c s' => if PyStr.isspace c then EmptyString else String c (take_token s')
  end.

Definition first_token (s : string) : option string :=
  match take_token (PyStr.lstrip s) with
  | EmptyString => None
  | t => Some t
  end.

Definition leading_keyword (s : string) : option string :=
  PyStr.lower <$> first_token s.

(** What the service goes through, as far as the metric objects see it. *)
Inductive event : Type :=
  | Served (request : Request) (status : Z) (start now : Z)
      (* a request whose handler chain answered with this status *)
  | Failed (request : Request) (e : exn)
      (* a request whose handler chain raised *)
  | Statement (statement : string) (start now : Z)
      (* a statement executed on the engine *)
  | Scraped (status : string) (start now : Z).
      (* a request to the scrape endpoint *)

Definition answer (status : Z) (m : Metrics) : Metrics * result Response :=
  (m, Ok (mkResponse status (Detail "") "application/json")).

Definition step (m : Metrics) (ev : event) : Metrics :=
  match ev with
  | Served request status start now =>
      (metrics_middleware request (answer status) start now m).1
  | Failed request e =>
      (metrics_middleware request (fun m' => (m', Raise e)) 0 0 m).1
  | Statement statement start now =>
      (after_cursor_execute statement (before_cursor_execute start) now m).1
  | Scraped status start now => (scrape status start now m).1
  end.

Definition run (trace : list event) (m : Metrics) : Metrics := foldl step m trace.

(** The samples a scrape returned; none when it did not answer with an
    exposition. *)
Definition exposition (r : result Response) : list Sample :=
  match r with
  | Ok (mkResponse _ (Text samples) _) => samples
  | _ => []
  end.

(** The number of capturing groups of a pattern. *)
Fixpoint group_count (p : list re.node) : nat :=
  match p with
  | [] => 0
  | re.Group _ :: p' => S (group_count p')
  | _ :: p' => group_count p'
  end.

(** A request the database refuses: the name is 101 characters long. *)
Definition oversized_name : string :=
  "aaaaaaaaaaaaaaaaaaaaaaaaaaaaaaaaaaaaaaaaaaaaaaaaaaaaaaaaaaaaaaaaaaaaaaaaaaaaaaaaaaaaaaaaaaaaaaaaaaaaa".

Definition refused_post (m : Metrics) : Metrics * result Response :=
  (m, (POST_data (schemas.mkUserDataCreate oversized_name "a@x.com" None) 0
         (mkDatabase ∅ 0)).2).

(** The label tuple under which an event is counted as a request, and as a
    query: a served request by its method, path and status; a scrape as
    the request it is; a statement by its leading keyword when that is a
    metered operation. *)
Definition observed_request (ev : event) : option (list string) :=
  match ev with
  | Served request status _ _ =>
      Some [method request; path request; pretty status]
  | Scraped _ _ _ => Some ["GET"; "/metrics"; pretty 200]
  | _ => None
  end.

Definition observed_query (ev : event) : option (list string) :=
  match ev with
  | Statement statement _ _ =>
      match leading_keyword statement with
      | Some op => if bool_decide (op ∈ metered_operations) then Some [op] else None
      | None => None
      end
  | _ => None
  end.

Definition occurrences (k : list string) (l : list (list string)) : Z :=
  Z.of_nat (length (filter (fun k' => k' = k) l)).

(** One sample for each distinct label tuple of [l], valued with the
    number of times the tuple occurs. *)
Definition one_sample_each (name : string) (labelnames : list string)
    (l : list (list string)) : list Sample :=
  (fun k => mkSample name (zip labelnames k) (occurrences k l)) <$> remove_dups l.

Definition expected_counter_values (trace : list event) : list Sample :=
  one_sample_each "http_requests_total" REQUEST_labelnames (omap observed_request trace)
  ++ one_sample_each "db_queries_total" DB_labelnames (omap observed_query trace).

(** A request body whose values can be written: each fits its column and
    none holds U+0000. *)
Definition accepted (data : schemas.UserDataCreate) : Prop :=
  (String.length (schemas.name data) ≤ 100
   ∧ String.length (schemas.email data) ≤ 255)%nat
  ∧ nul_free (schemas.name data) = true
  ∧ nul_free (schemas.email data) = true
  ∧ from_option nul_free true (schemas.message data) = true.

(** The entity a body describes, under a given key and creation time. *)
Definition entity (item_id : Z) (data : schemas.UserDataCreate) (created : Z)
  : models.UserData :=
  models.mkUserData item_id (schemas.name data) (schemas.email data)
    (schemas.message data) created.

Definition json_response (status : Z) (b : Body) : Response :=
  mkResponse status b "application/json".

Definition not_found : Response := json_response 404 (Detail "Item not found").

(** A validator that takes strings only. *)
Definition strict_str (v : schemas.json) : option string :=
  match v with
  | schemas.JString s => Some s
  | _ => None
  end.

(** A small database and two request bodies, for the examples. *)
Definition example_db : Database :=
  mkDatabase {[ 1 := mkRow "A" "a@x.com" (Some "hello") 1000 ]} 1.

Definition example_data : schemas.UserDataCreate :=
  schemas.mkUserDataCreate "B" "b@x.com" None.

Definition example_payload : gmap string schemas.json :=
  {[ "name" := schemas.JString "B"; "email" := schemas.JString "b@x.com" ]}.

(** ** The health check ([main.py], lines 148-157)

    [failure] is the message of the exception that [db.execute] raised, if
    it raised one. The engine runs the two cursor listeners around a
    statement that executes; when the execution fails the second listener
    is not run. Whatever is raised inside the [try] is caught and becomes
    the 500 answer. *)

Record HealthReply : Type := mkHealthReply {
  health_status_code : Z;
  health_content : list (string * string)
}.

Definition health_check (failure : option string) (start now : Z) (m : Metrics)
  : Metrics * HealthReply :=
  let unreachable detail :=
    mkHealthReply 500
      [("status", "error"); ("database", "unreachable"); ("detail", detail)] in
  match failure with
  | Some detail => (m, unreachable detail)
  | None =>
      match after_cursor_execute "SELECT 1" (before_cursor_execute start) now m with
      | (m', Ok _) =>
          (m', mkHealthReply 200 [("status", "ok"); ("database", "reachable")])
      | (m', Raise _) => (m', unreachable "list index out of range")
      end
  end.

(** ** Vocabulary for sequences of requests *)

(** The requests to the CRUD endpoints, and what each does to the
    database. *)
Inductive crud_request : Type :=
  | Create (data : schemas.UserDataCreate) (now : Z)
  | Read (skip limit : Z)
  | Update (item_id : Z) (data : schemas.UserDataCreate)
  | Delete (item_id : Z).

Definition crud_step (db : Database) (rq : crud_request) : Database :=
  match rq with
  | Create data now => (POST_data data now db).1
  | Read skip limit => (GET_data skip limit db).1
  | Update item_id data => (PUT_data item_id data db).1
  | Delete item_id => (DELETE_data item_id db).1
  end.

(** The database before the first request. *)
Definition empty_db : Database := mkDatabase ∅ 0.

(** Every key of the table was given out by the sequence. *)
Definition issued (db : Database) : Prop :=
  forall k, is_Some (user_data db !! k) -> k ≤ user_data_id_seq db.

(** The entities a GET /data answered with; none when it did not answer
    with a list. *)
Definition listing (db : Database) (skip limit : Z) : list models.UserData :=
  match (GET_data skip limit db).2 with
  | Ok (mkResponse _ (Entities items) _) => items
  | _ => []
  end.

(** The number of requests of a history whose handler chain raised. *)
Definition raised (ev : event) : bool :=
  match ev with
  | Failed _ _ => true
  | _ => false
  end.

Definition failures (trace : list event) : Z :=
  Z.of_nat (length (filter (fun ev => raised ev = true) trace)).

(** A histogram child as [.labels()] creates it: one bucket per bound and
    one for [+Inf]. *)
Definition well_formed (bounds : list Z) (h : prometheus.HistogramSeries) : Prop :=
  length (prometheus.h_buckets h) = S (length bounds).

(** The number of amounts that are at most [b]. *)
Definition at_most (b : Z) (amounts : list Z) : Z :=
  Z.of_nat (length (filter (fun a => a ≤ b) amounts)).



(** A counter and a histogram agree: they have the same series, the count
    of each series is the counter's value, and every series has all its
    buckets. *)
Definition paired (bounds : list Z) (c : gmap (list string) Z)
    (h : gmap (list string) prometheus.HistogramSeries) : Prop :=
  forall k, (prometheus.h_count <$> h !! k = c !! k)
            /\ (forall s, h !! k = Some s -> well_formed bounds s).

(** The listing entry of a record after an update with [data]: the record
    with that id takes the fields of the body and keeps its [created_at];
    the others are as they were. *)
Definition replaced (item_id : Z) (data : schemas.UserDataCreate)
    (e : models.UserData) : models.UserData :=
  if decide (models.id e = item_id)
  then entity item_id data (models.created_at e) else e.

(** The exception that a refused write of a body raises. *)
Definition refusal_of (data : schemas.UserDataCreate) : exn :=
  refusal (entity 0 data 0).

(** A table of three records whose ids are not in the order of their
    timestamps, and a second request body. *)
Definition example_table : Database :=
  mkDatabase {[ 1 := mkRow "A" "a@x.com" (Some "hello") 1000;
                2 := mkRow "B" "b@x.com" None 3000;
                3 := mkRow "C" "c@x.com" (Some "bye") 2000 ]} 3.

Definition other_data : schemas.UserDataCreate :=
  schemas.mkUserDataCreate "D" "d@x.com" (Some "changed").

(** * Properties *)

(** ** Strings *)

Example split_statement :
  PyStr.split (PyStr.strip "  SELECT  user_data.id
 FROM user_data ") = ["SELECT"; "user_data.id"; "FROM"; "user_data"].
Proof. reflexivity. Qed.

Example lower_keyword : PyStr.lower "InSeRt" = "insert".
Proof. reflexivity. Qed.

Example strip_blank : PyStr.strip "   " = "".
Proof. reflexivity. Qed.

Section string_facts.
Import PyStr.

Lemma rstrip_blank s : all isspace s = true -> rstrip s = "".
Proof.
  induction s as [|c s IH]; simpl; [done|].
  intros [Hc Hs]%andb_prop. by rewrite (IH Hs), Hc.
Qed.

Lemma strip_blank_empty s : all isspace s = true -> strip s = "".
Proof. intros H. unfold strip. by rewrite (rstrip_blank _ H). Qed.

Lemma split_rstrip_empty s : rstrip s = "" -> split s = [].
Proof.
  induction s as [|c s IH]; simpl; [done|].
  destruct (rstrip s) eqn:Hr; [|done].
  destruct (isspace c); [auto|done].
Qed.

Lemma rstrip_head c s c' r :
  rstrip (String c s) = String c' r -> c' = c.
Proof.
  simpl. destruct (rstrip s); [destruct (isspace c)|]; congruence.
Qed.

Lemma split_cons c s :
  split (String c s) =
    if isspace c then split s
    else match s with
         | EmptyString => [String c EmptyString]
         | String c' _ =>
             if isspace c' then String c EmptyString :: split s
             else match split s with
                  | t :: ts => String c t :: ts
                  | [] => [String c EmptyString]
                  end
         end.
Proof. done. Qed.

Lemma split_rstrip s : split (rstrip s) = split s.
Proof.
  induction s as [|c s IH]; [done|].
  cbn [rstrip]. destruct (rstrip s) as [|c' r] eqn:Hr.
  - pose proof (split_rstrip_empty _ Hr) as Hs.
    rewrite (split_cons c s), Hs.
    destruct (isspace c) eqn:Hc; [done|]. simpl. rewrite Hc.
    by destruct s as [|c2 s2]; [|destruct (isspace c2)].
  - rewrite (split_cons c s), (split_cons c (String c' r)), IH.
    destruct (isspace c) eqn:Hc; [done|].
    destruct s as [|c2 s2]; [done|].
    apply rstrip_head in Hr as ->. done.
Qed.

Lemma split_lstrip s : split (lstrip s) = split s.
Proof.
  induction s as [|c s IH]; [done|].
  cbn [lstrip]. destruct (isspace c) eqn:Hc; [|done].
  cbn [split]. by rewrite Hc.
Qed.

Lemma split_strip s : split (strip s) = split s.
Proof. unfold strip. by rewrite split_lstrip, split_rstrip. Qed.

Lemma lstrip_nonspace c s : isspace c = false -> lstrip (String c s) = String c s.
Proof. intros H. simpl. by rewrite H. Qed.

(** The first element of [s.split()] is the first token of [s]. *)
Lemma head_split s : head (split s) = first_token s.
Proof.
  unfold first_token. induction s as [|c s IH]; [done|].
  cbn [split lstrip]. destruct (isspace c) eqn:Hc; [done|].
  cbn [take_token]. rewrite Hc.
  destruct s as [|c2 s2]; [done|].
  destruct (isspace c2) eqn:Hc2.
  - simpl. by rewrite Hc2.
  - rewrite lstrip_nonspace in IH by done.
    cbn [take_token] in *. rewrite Hc2 in *.
    destruct (split (String c2 s2)) as [|t ts]; simpl in *; congruence.
Qed.

Lemma first_token_blank s : all isspace s = true -> first_token s = None.
Proof.
  intros H. rewrite <- head_split, <- split_strip, (strip_blank_empty _ H). done.
Qed.

Lemma take_token_nonspace s : all (fun c => negb (isspace c)) (take_token s) = true.
Proof.
  induction s as [|c s IH]; [done|]. simpl.
  destruct (isspace c) eqn:Hc; [done|]. simpl. by rewrite Hc.
Qed.

End string_facts.

(** ** The query interceptor *)

Example after_select :
  (after_cursor_execute "SELECT 1" (before_cursor_execute 10) 25
     initial_metrics).1.(DB_QUERIES_TOTAL) !! ["select"] = Some 1.
Proof. vm_compute. reflexivity. Qed.

Example after_create_table :
  after_cursor_execute "CREATE TABLE user_data (id SERIAL)"
    (before_cursor_execute 10) 25 initial_metrics = (initial_metrics, Ok tt).
Proof. vm_compute. reflexivity. Qed.


(** An observation adds the amount to the sum and one to the count of a
    series that has its [+Inf] bucket. *)
Lemma observe_buckets_total bounds counts amount :
  length counts = S (length bounds) ->
  foldr Z.add 0 (prometheus.observe_buckets bounds counts amount)
  = foldr Z.add 0 counts + 1.
Proof.
  revert counts. induction bounds as [|b bs IH]; intros [|c cs] Hlen; simplify_eq/=.
  - lia.
  - destruct (amount <=? b); simpl; [lia|]. rewrite IH by done. lia.
Qed.

Lemma observe_count bounds amount h :
  length (prometheus.h_buckets h) = S (length bounds) ->
  prometheus.h_count (prometheus.observe bounds amount h) = prometheus.h_count h + 1
  /\ prometheus.h_sum (prometheus.observe bounds amount h) = prometheus.h_sum h + amount.
Proof.
  intros Hlen. split; [|done].
  unfold prometheus.h_count. simpl. by apply observe_buckets_total.
Qed.



(** C9. A statement that is empty or holds only whitespace has no first
    token: indexing the empty token list raises [IndexError], and the call
    fails instead of returning with the metrics unchanged. *)
Theorem after_cursor_execute_blank_raises statement context now m :
  PyStr.all PyStr.isspace statement = true ->
  after_cursor_execute statement context now m = (m, Raise IndexError).
Proof.
  intros Hblank. unfold after_cursor_execute.
  by rewrite (strip_blank_empty _ Hblank).
Qed.

Lemma after_cursor_execute_blank_raises_witness :
  PyStr.all PyStr.isspace "  " = true
  /\ after_cursor_execute "  " (before_cursor_execute 3) 10 initial_metrics
     = (initial_metrics, Raise IndexError).
Proof.
  split; [reflexivity|].
  exact (after_cursor_execute_blank_raises "  " (before_cursor_execute 3) 10
           initial_metrics eq_refl).
Defined.

(** ** The request interceptor *)

(** On the path where the handler chain answers (also with an error
    status produced from an [HTTPException]), the gauge is back at its
    value from before the request, the series of the request's labels has
    one more request and the latency is observed there. *)
Lemma metrics_middleware_answered request call_next start now m m2 response :
  call_next (with_IN_PROGRESS (fun v => v + 1) m) = (m2, Ok response) ->
  IN_PROGRESS m2 = IN_PROGRESS m + 1 ->
  let k := [method request; path request; pretty (status_code response)] in
  let out := metrics_middleware request call_next start now m in
  out.2 = Ok response
  /\ IN_PROGRESS out.1 = IN_PROGRESS m
  /\ prometheus.counter_value k (REQUEST_COUNT out.1)
     = prometheus.counter_value k (REQUEST_COUNT m2) + 1.
Proof.
  intros Hnext Hgauge. cbn zeta. unfold metrics_middleware. rewrite Hnext. simpl.
  unfold prometheus.counter_value, prometheus.counter_inc.
  rewrite lookup_insert_eq. split; [done|]. split; [lia|done].
Qed.

(** C1, at the failing input. When the handler chain raises, the exception
    leaves [metrics_middleware] at the [await]: the decrement is not
    reached, the request is not counted, and the gauge stays one above its
    value from before the request. *)
Theorem metrics_middleware_raise_leaks_gauge request call_next start now m m2 e :
  call_next (with_IN_PROGRESS (fun v => v + 1) m) = (m2, Raise e) ->
  IN_PROGRESS m2 = IN_PROGRESS m + 1 ->
  let out := metrics_middleware request call_next start now m in
  out.2 = Raise e
  /\ IN_PROGRESS out.1 = IN_PROGRESS m + 1
  /\ IN_PROGRESS out.1 ≠ IN_PROGRESS m
  /\ REQUEST_COUNT out.1 = REQUEST_COUNT m2
  /\ REQUEST_LATENCY out.1 = REQUEST_LATENCY m2.
Proof.
  intros Hnext Hgauge. cbn zeta. unfold metrics_middleware. rewrite Hnext. simpl.
  split; [done|]. split; [done|]. split; [lia|done].
Qed.

Lemma metrics_middleware_raise_leaks_gauge_witness :
  refused_post (with_IN_PROGRESS (fun v => v + 1) initial_metrics)
    = (with_IN_PROGRESS (fun v => v + 1) initial_metrics, Raise DataError)
  /\ IN_PROGRESS (metrics_middleware (mkRequest "POST" "/data") refused_post 0 1
                    initial_metrics).1 = IN_PROGRESS initial_metrics + 1.
Proof.
  split; [reflexivity|].
  exact (proj1 (proj2 (metrics_middleware_raise_leaks_gauge
                         (mkRequest "POST" "/data") refused_post 0 1 initial_metrics
                         (with_IN_PROGRESS (fun v => v + 1) initial_metrics)
                         DataError eq_refl eq_refl))).
Defined.

(** The gauge after a failed request, evaluated: it started at 0 and no
    request is in progress, yet it reads 1. *)
Example gauge_after_refused_post :
  IN_PROGRESS (step initial_metrics
                 (Failed (mkRequest "POST" "/data") DataError)) = 1.
Proof. reflexivity. Qed.

(** ** The scrape endpoint *)

Section regex_facts.
Import re.

Lemma greedy_continues {R} cls (k : string -> string -> option R) taken s r :
  greedy cls k taken s = Some r -> exists t' s', k t' s' = Some r.
Proof.
  revert taken. induction s as [|c s IH]; intros taken; simpl; [eauto|].
  destruct (cls c); [|eauto].
  destruct (greedy cls k (taken +:+ String c "") s) eqn:Hg; [|eauto].
  intros [= <-]. eauto.
Qed.

Lemma match_here_groups p s groups groups' :
  match_here p s groups = Some groups' ->
  length groups' = (length groups + group_count p)%nat.
Proof.
  revert s groups. induction p as [|n p IH]; intros s groups; simpl.
  - intros [= <-]. lia.
  - destruct n as [c|cls|cls].
    + destruct s as [|c' s']; [done|]. destruct (Ascii.eqb c c'); [|done].
      apply IH.
    + intros (t' & s' & H)%greedy_continues. by apply IH in H.
    + destruct s as [|c s']; [done|]. destruct (cls c); [|done].
      intros (t' & s'' & H)%greedy_continues. apply IH in H.
      rewrite length_app in H. simpl in *. lia.
Qed.

Lemma search_groups p s groups :
  search p s = Some groups -> length groups = group_count p.
Proof.
  induction s as [|c s IH]; simpl.
  - destruct (match_here p "" []) eqn:Hm; [|done].
    intros [= <-]. by apply match_here_groups in Hm.
  - destruct (match_here p (String c s) []) eqn:Hm; [|done].
    intros [= <-]. by apply match_here_groups in Hm.
Qed.

End regex_facts.

Example search_parsed :
  re.search pool_pattern
    "Connections in use: 12; Free connections: 3, Waiting connections: 40 threads"
  = Some ["12"; "3"; "40"].
Proof. vm_compute. reflexivity. Qed.

(** The line [QueuePool.status()] prints is not in the format the endpoint
    looks for. *)
Example search_queue_pool :
  re.search pool_pattern
    "Pool size: 5  Connections in pool: 0 Current Overflow: -5 Current Checked out connections: 0"
  = None.
Proof. vm_compute. reflexivity. Qed.

(** The endpoint always answers 200 with the exposition of the registry as
    it is after the gauge update; it changes nothing but the pool gauges. *)
Lemma metrics_answers status m :
  exists m',
    metrics status m
      = (m', Ok (mkResponse 200 (Text (generate_latest m')) CONTENT_TYPE_LATEST))
    /\ REQUEST_COUNT m' = REQUEST_COUNT m
    /\ REQUEST_LATENCY m' = REQUEST_LATENCY m
    /\ IN_PROGRESS m' = IN_PROGRESS m
    /\ DB_QUERIES_TOTAL m' = DB_QUERIES_TOTAL m
    /\ DB_QUERY_DURATION m' = DB_QUERY_DURATION m.
Proof.
  unfold metrics. destruct (re.search pool_pattern status) as [groups|] eqn:Hs.
  - apply search_groups in Hs.
    destruct groups as [|g1 [|g2 [|g3 [|g4 groups]]]]; simplify_eq/=.
    eexists. split; [done|]. done.
  - eexists. split; [done|]. done.
Qed.

(** C3. When the pool's status line does not match the expected format,
    the endpoint leaves the registry as it was, the three pool gauges
    included, and answers 200 with the exposition of that registry; behind
    the request interceptor the scrape succeeds as well and the pool
    gauges keep their previous values. *)
Theorem metrics_skips_unparsed_status status start now m :
  re.search pool_pattern status = None ->
  metrics status m
    = (m, Ok (mkResponse 200 (Text (generate_latest m)) CONTENT_TYPE_LATEST))
  /\ let out := scrape status start now m in
     out.2 = Ok (mkResponse 200
                   (Text (generate_latest (with_IN_PROGRESS (fun v => v + 1) m)))
                   CONTENT_TYPE_LATEST)
     /\ DB_POOL_CHECKED_OUT out.1 = DB_POOL_CHECKED_OUT m
     /\ DB_POOL_IDLE out.1 = DB_POOL_IDLE m
     /\ DB_POOL_WAITERS out.1 = DB_POOL_WAITERS m.
Proof.
  intros Hnone. unfold scrape, metrics_middleware, metrics. rewrite Hnone. done.
Qed.

Lemma metrics_skips_unparsed_status_witness :
  re.search pool_pattern "NullPool" = None
  /\ metrics "NullPool" (set_pool_gauges 4 1 0 initial_metrics)
     = (set_pool_gauges 4 1 0 initial_metrics,
        Ok (mkResponse 200
              (Text (generate_latest (set_pool_gauges 4 1 0 initial_metrics)))
              CONTENT_TYPE_LATEST)).
Proof.
  split; [reflexivity|].
  exact (proj1 (metrics_skips_unparsed_status "NullPool" 0 1
                  (set_pool_gauges 4 1 0 initial_metrics) eq_refl)).
Defined.

(** ** Counter values in the exposition *)

Section tally.
Implicit Types (c : gmap (list string) Z) (k : list string)
  (l : list (list string)).

Lemma occurrences_cons k k' l :
  occurrences k (k' :: l) = (if decide (k' = k) then 1 else 0) + occurrences k l.
Proof.
  unfold occurrences. rewrite filter_cons.
  destruct (decide (k' = k)); simpl; lia.
Qed.

Lemma occurrences_nonneg k l : 0 ≤ occurrences k l.
Proof. unfold occurrences. lia. Qed.

Lemma occurrences_pos k l : k ∈ l <-> 0 < occurrences k l.
Proof.
  induction l as [|k' l IH].
  - split; [by intros ?%elem_of_nil|done].
  - rewrite occurrences_cons, elem_of_cons.
    pose proof (occurrences_nonneg k l).
    destruct (decide (k' = k)) as [->|Hne]; [split; [lia|auto]|].
    rewrite <- IH. split; [intros [?|?]; [congruence|done]|auto].
Qed.

(** Incrementing along a list of label tuples. *)
Lemma tally_lookup l c k v :
  foldl (fun c k => prometheus.counter_inc k c) c l !! k = Some v <->
  (c !! k = None /\ k ∈ l /\ v = occurrences k l)
  \/ (exists v0, c !! k = Some v0 /\ v = v0 + occurrences k l).
Proof.
  revert c v. induction l as [|k' l IH]; intros c v; simpl.
  - unfold occurrences. simpl. split.
    + intros H. right. exists v. split; [done|lia].
    + intros [(_ & []%elem_of_nil & _)|(v0 & -> & ->)]. f_equal. lia.
  - rewrite IH, occurrences_cons. unfold prometheus.counter_inc.
    destruct (decide (k' = k)) as [->|Hne].
    + rewrite lookup_insert_eq. split.
      * intros [(? & _)|(v0 & [= <-] & ->)]; [done|].
        destruct (c !! k) as [v1|] eqn:Hc; simpl.
        -- right. exists v1. split; [done|lia].
        -- left. split; [done|]. split; [left|lia].
      * intros [(Hc & _ & ->)|(v0 & Hc & ->)]; right; rewrite Hc; simpl;
          eexists; (split; [done|lia]).
    + rewrite lookup_insert_ne by done. split.
      * intros [(Hc & Hin & ->)|(v0 & Hc & ->)].
        -- left. split; [done|]. split; [by right|lia].
        -- right. exists v0. split; [done|lia].
      * intros [(Hc & Hin & ->)|(v0 & Hc & ->)].
        -- left. split; [done|]. split; [|lia].
           apply elem_of_cons in Hin as [?|?]; [congruence|done].
        -- right. exists v0. split; [done|lia].
Qed.

Lemma tally_to_list l :
  map_to_list (foldl (fun c k => prometheus.counter_inc k c) ∅ l)
  ≡ₚ (fun k => (k, occurrences k l)) <$> remove_dups l.
Proof.
  apply NoDup_Permutation.
  - apply NoDup_map_to_list.
  - apply NoDup_fmap_2; [|apply NoDup_remove_dups]. intros k1 k2 Heq. congruence.
  - intros [k v]. rewrite elem_of_map_to_list, tally_lookup, lookup_empty.
    rewrite list_elem_of_fmap. split.
    + intros [(_ & Hin & ->)|(? & [=] & _)].
      exists k. split; [done|]. by apply elem_of_remove_dups.
    + intros (k' & [= <- ->] & Hin). rewrite elem_of_remove_dups in Hin.
      left. by split_and!.
Qed.

Lemma counter_samples_tally name labelnames l :
  counter_samples name labelnames
    (foldl (fun c k => prometheus.counter_inc k c) ∅ l)
  ≡ₚ one_sample_each name labelnames l.
Proof.
  unfold counter_samples, one_sample_each.
  rewrite tally_to_list, <- list_fmap_compose. done.
Qed.
End tally.

(** The counters of an exposition are the samples of the two [Counter]
    metrics. *)
Lemma filter_all {A} (P : A -> Prop) `{!forall x, Decision (P x)} (l : list A) :
  Forall P l -> filter P l = l.
Proof.
  induction 1 as [|x l Hx _ IH]; [done|].
  rewrite filter_cons, decide_True by done. by rewrite IH.
Qed.

Lemma filter_none {A} (P : A -> Prop) `{!forall x, Decision (P x)} (l : list A) :
  Forall (fun x => ¬ P x) l -> filter P l = [].
Proof.
  induction 1 as [|x l Hx _ IH]; [done|].
  by rewrite filter_cons, decide_False.
Qed.

Lemma counter_samples_name name labelnames c :
  Forall (fun s => sample_name s = name) (counter_samples name labelnames c).
Proof. unfold counter_samples. apply Forall_fmap, Forall_true. done. Qed.

Lemma histogram_samples_name name labelnames le h :
  Forall (fun s => sample_name s = name +:+ "_bucket"
                   \/ sample_name s = name +:+ "_count"
                   \/ sample_name s = name +:+ "_sum")
    (histogram_samples name labelnames le h).
Proof.
  unfold histogram_samples. apply Forall_bind, Forall_true. intros kv.
  unfold histogram_series_samples. apply Forall_app. split.
  - apply Forall_fmap, Forall_true. intros ?. simpl. auto.
  - constructor; [simpl; auto|]. constructor; [simpl; auto|]. constructor.
Qed.

Lemma counter_values_generate_latest m :
  counter_values (generate_latest m)
  = counter_samples "http_requests_total" REQUEST_labelnames (REQUEST_COUNT m)
    ++ counter_samples "db_queries_total" DB_labelnames (DB_QUERIES_TOTAL m).
Proof.
  unfold counter_values, generate_latest. rewrite !filter_app.
  rewrite (filter_all _ (counter_samples "http_requests_total" _ _)).
  2:{ eapply Forall_impl; [apply counter_samples_name|].
      intros s Hs. unfold is_counter_sample. rewrite Hs. done. }
  rewrite (filter_all _ (counter_samples "db_queries_total" _ _)).
  2:{ eapply Forall_impl; [apply counter_samples_name|].
      intros s Hs. unfold is_counter_sample. rewrite Hs. done. }
  rewrite !(filter_none _ (histogram_samples _ _ _ _)).
  2,3: eapply Forall_impl; [apply histogram_samples_name|];
       intros s [Hs|[Hs|Hs]]; unfold is_counter_sample; rewrite Hs; done.
  simpl. by rewrite app_nil_r.
Qed.

(** What one event does to the two counters. *)
Lemma leading_keyword_split statement :
  leading_keyword statement
  = PyStr.lower <$> head (PyStr.split (PyStr.strip statement)).
Proof. unfold leading_keyword. by rewrite split_strip, head_split. Qed.

Lemma step_REQUEST_COUNT m ev :
  REQUEST_COUNT (step m ev)
  = match observed_request ev with
    | Some k => prometheus.counter_inc k (REQUEST_COUNT m)
    | None => REQUEST_COUNT m
    end.
Proof.
  destruct ev as [request status start now|request e|statement start now
                 |status start now]; simpl; try done.
  - unfold after_cursor_execute.
    destruct (PyStr.split (PyStr.strip statement)); [done|].
    by case_bool_decide.
  - unfold scrape, metrics_middleware.
    destruct (metrics_answers status (with_IN_PROGRESS (fun v => v + 1) m))
      as (m' & -> & Hrc & _). simpl. by rewrite Hrc.
Qed.

Lemma step_DB_QUERIES_TOTAL m ev :
  DB_QUERIES_TOTAL (step m ev)
  = match observed_query ev with
    | Some k => prometheus.counter_inc k (DB_QUERIES_TOTAL m)
    | None => DB_QUERIES_TOTAL m
    end.
Proof.
  destruct ev as [request status start now|request e|statement start now
                 |status start now]; simpl; try done.
  - rewrite leading_keyword_split. unfold after_cursor_execute.
    destruct (PyStr.split (PyStr.strip statement)); [done|]. simpl.
    by case_bool_decide.
  - unfold scrape, metrics_middleware.
    destruct (metrics_answers status (with_IN_PROGRESS (fun v => v + 1) m))
      as (m' & -> & _ & _ & _ & Hdb & _). simpl. by rewrite Hdb.
Qed.

Lemma run_snoc trace ev m : run (trace ++ [ev]) m = step (run trace m) ev.
Proof. unfold run. by rewrite foldl_app. Qed.

Lemma run_REQUEST_COUNT trace :
  REQUEST_COUNT (run trace initial_metrics)
  = foldl (fun c k => prometheus.counter_inc k c) ∅ (omap observed_request trace).
Proof.
  induction trace as [|ev trace IH] using rev_ind; [done|].
  rewrite run_snoc, step_REQUEST_COUNT, omap_app, foldl_app, IH. simpl.
  by destruct (observed_request ev).
Qed.

Lemma run_DB_QUERIES_TOTAL trace :
  DB_QUERIES_TOTAL (run trace initial_metrics)
  = foldl (fun c k => prometheus.counter_inc k c) ∅ (omap observed_query trace).
Proof.
  induction trace as [|ev trace IH] using rev_ind; [done|].
  rewrite run_snoc, step_DB_QUERIES_TOTAL, omap_app, foldl_app, IH. simpl.
  by destruct (observed_query ev).
Qed.

(** After any history, the exposition holds one counter sample for each
    distinct label tuple that was observed, valued with the number of
    observations. *)
Lemma counter_values_run trace :
  counter_values (generate_latest (run trace initial_metrics))
  ≡ₚ expected_counter_values trace.
Proof.
  rewrite counter_values_generate_latest, run_REQUEST_COUNT, run_DB_QUERIES_TOTAL.
  unfold expected_counter_values. by rewrite !counter_samples_tally.
Qed.

Lemma counter_values_scrape status start now m :
  counter_values (exposition (scrape status start now m).2)
  = counter_values (generate_latest m).
Proof.
  unfold scrape, metrics_middleware.
  destruct (metrics_answers status (with_IN_PROGRESS (fun v => v + 1) m))
    as (m' & -> & Hrc & _ & _ & Hdb & _). simpl.
  by rewrite !counter_values_generate_latest, Hrc, Hdb.
Qed.

Lemma counter_values_metrics status m :
  counter_values (exposition (metrics status m).2)
  = counter_values (generate_latest m)
  /\ counter_values (generate_latest (metrics status m).1)
     = counter_values (generate_latest m).
Proof.
  destruct (metrics_answers status m) as (m' & -> & Hrc & _ & _ & Hdb & _). simpl.
  by rewrite !counter_values_generate_latest, Hrc, Hdb.
Qed.

(** C4, as the code has it. The endpoint itself reads the counters without
    changing them: called twice in a row it returns the same counter
    values. A scrape of the service is a request like any other, counted
    by the interceptor once its exposition is built: after a history
    [trace] the first of two consecutive scrapes returns one counter value
    for each distinct label tuple observed in [trace], and the second
    returns the same for [trace] followed by the first scrape, which is the
    first scrape's values with one more request in the series of
    GET /metrics 200. *)
Theorem scrape_counter_values trace status1 start1 now1 status2 start2 now2 :
  let m := run trace initial_metrics in
  let first := scrape status1 start1 now1 m in
  let second := scrape status2 start2 now2 first.1 in
  counter_values (exposition (metrics status2 (metrics status1 m).1).2)
    = counter_values (exposition (metrics status1 m).2)
  /\ counter_values (exposition first.2) ≡ₚ expected_counter_values trace
  /\ counter_values (exposition second.2)
     ≡ₚ expected_counter_values (trace ++ [Scraped status1 start1 now1])
  /\ REQUEST_COUNT first.1
     = prometheus.counter_inc ["GET"; "/metrics"; pretty 200] (REQUEST_COUNT m)
  /\ DB_QUERIES_TOTAL first.1 = DB_QUERIES_TOTAL m.
Proof.
  cbn zeta. split_and!.
  - destruct (counter_values_metrics status1 (run trace initial_metrics)) as [-> <-].
    by destruct (counter_values_metrics status2
                   (metrics status1 (run trace initial_metrics)).1) as [-> _].
  - rewrite counter_values_scrape. apply counter_values_run.
  - rewrite counter_values_scrape.
    change (scrape status1 start1 now1 (run trace initial_metrics)).1
      with (step (run trace initial_metrics) (Scraped status1 start1 now1)).
    rewrite <- run_snoc. apply counter_values_run.
  - apply (step_REQUEST_COUNT _ (Scraped status1 start1 now1)).
  - apply (step_DB_QUERIES_TOTAL _ (Scraped status1 start1 now1)).
Qed.

(** C4, as stated, fails: right after process start, the first scrape
    returns no counter value and the second returns the count of the
    first. *)
Lemma consecutive_scrapes_differ :
  let first := scrape "NullPool" 0 1 initial_metrics in
  let second := scrape "NullPool" 2 3 first.1 in
  counter_values (exposition first.2) = []
  /\ counter_values (exposition second.2)
     = [mkSample "http_requests_total"
          [("method", "GET"); ("endpoint", "/metrics"); ("http_status", "200")] 1]
  /\ counter_values (exposition first.2) ≠ counter_values (exposition second.2).
Proof. vm_compute. split_and!; done. Qed.

(** ** The CRUD endpoints *)

Lemma foldl_setattr item data :
  foldl setattr item (schemas.dict data)
  = entity (models.id item) data (models.created_at item).
Proof. done. Qed.

Lemma fits_accepted item_id data created :
  fits (entity item_id data created) = true <-> accepted data.
Proof.
  unfold fits, accepted, nul_free_fields. simpl.
  rewrite !andb_true_iff, bool_decide_eq_true. tauto.
Qed.

(** [update_user_data] on a key that is present: the row is replaced when
    the values can be written, and the call raises otherwise. *)
Lemma update_user_data_present db item_id data row :
  user_data db !! item_id = Some row ->
  crud.update_user_data db item_id data
  = if fits (entity item_id data (row_created_at row)) then
      (mkDatabase (<[item_id := row_of (entity item_id data (row_created_at row))]>
                     (user_data db)) (user_data_id_seq db),
       Ok (Some (entity item_id data (row_created_at row))))
    else (db, Raise (refusal (entity item_id data (row_created_at row)))).
Proof.
  intros Hrow. unfold crud.update_user_data, query_first. rewrite Hrow. simpl.
  done.
Qed.

Lemma PUT_data_succeeds db item_id data row :
  user_data db !! item_id = Some row -> accepted data ->
  exists db' updated,
    PUT_data item_id data db = (db', Ok (json_response 200 (Entity updated))).
Proof.
  intros Hrow Hacc. unfold PUT_data, update_data.
  rewrite (update_user_data_present _ _ _ _ Hrow).
  apply (fits_accepted item_id data (row_created_at row)) in Hacc. rewrite Hacc.
  simpl. eauto.
Qed.

(** C5. On a key that is not in the table, PUT and DELETE answer 404 with
    the message "Item not found" and leave the database as it was; and
    after a DELETE that found its row, the same DELETE again answers 404
    and changes nothing. *)
Theorem absent_id_not_found db item_id data :
  (user_data db !! item_id = None ->
   PUT_data item_id data db = (db, Ok not_found)
   /\ DELETE_data item_id db = (db, Ok not_found))
  /\ (forall row, user_data db !! item_id = Some row ->
      let first := DELETE_data item_id db in
      first.2 = Ok (json_response 200 (Entity (load item_id row)))
      /\ user_data first.1 !! item_id = None
      /\ DELETE_data item_id first.1 = (first.1, Ok not_found)).
Proof.
  split.
  - intros Habsent.
    unfold PUT_data, update_data, crud.update_user_data, DELETE_data, delete_data,
      crud.delete_user_data, query_first.
    by rewrite Habsent.
  - intros row Hrow. cbn zeta.
    unfold DELETE_data, delete_data, crud.delete_user_data, query_first.
    rewrite Hrow. simpl. rewrite lookup_delete_eq. done.
Qed.

(** C7. A PUT that succeeds on an existing record answers 200 with the
    record under the same [id] and [created_at], its [name], [email] and
    [message] taken from the body; that is the row stored under the key
    afterwards, and no other row and not the key sequence is changed. *)
Theorem update_keeps_id_and_created_at db item_id data row db' response :
  user_data db !! item_id = Some row ->
  PUT_data item_id data db = (db', Ok response) ->
  response = json_response 200 (Entity (entity item_id data (row_created_at row)))
  /\ query_first db' item_id = Some (entity item_id data (row_created_at row))
  /\ models.id <$> query_first db' item_id = models.id <$> query_first db item_id
  /\ models.created_at <$> query_first db' item_id
     = models.created_at <$> query_first db item_id
  /\ (forall k, k ≠ item_id -> user_data db' !! k = user_data db !! k)
  /\ user_data_id_seq db' = user_data_id_seq db.
Proof.
  intros Hrow. unfold PUT_data, update_data.
  rewrite (update_user_data_present _ _ _ _ Hrow).
  destruct (fits _); simpl; [|by unfold refusal; destruct (nul_free_fields _)].
  intros [= <- <-].
  unfold query_first. simpl. rewrite lookup_insert_eq, Hrow. split_and!; try done.
  intros k Hk. by rewrite lookup_insert_ne.
Qed.

Lemma absent_id_not_found_witness :
  user_data example_db !! 7 = None
  /\ PUT_data 7 example_data example_db = (example_db, Ok not_found)
  /\ user_data example_db !! 1 = Some (mkRow "A" "a@x.com" (Some "hello") 1000)
  /\ DELETE_data 1 (DELETE_data 1 example_db).1
     = ((DELETE_data 1 example_db).1, Ok not_found).
Proof.
  split; [reflexivity|].
  split; [exact (proj1 (proj1 (absent_id_not_found example_db 7 example_data)
                          eq_refl))|].
  split; [reflexivity|].
  exact (proj2 (proj2 (proj2 (absent_id_not_found example_db 1 example_data)
                         (mkRow "A" "a@x.com" (Some "hello") 1000) eq_refl))).
Defined.

Lemma update_keeps_id_and_created_at_witness :
  user_data example_db !! 1 = Some (mkRow "A" "a@x.com" (Some "hello") 1000)
  /\ PUT_data 1 example_data example_db
     = (mkDatabase {[ 1 := mkRow "B" "b@x.com" None 1000 ]} 1,
        Ok (json_response 200 (Entity (models.mkUserData 1 "B" "b@x.com" None 1000))))
  /\ models.created_at
     <$> query_first (mkDatabase {[ 1 := mkRow "B" "b@x.com" None 1000 ]} 1) 1
     = models.created_at <$> query_first example_db 1.
Proof.
  split; [reflexivity|]. split; [reflexivity|].
  exact (proj1 (proj2 (proj2 (proj2
           (update_keeps_id_and_created_at example_db 1 example_data
              (mkRow "A" "a@x.com" (Some "hello") 1000)
              (mkDatabase {[ 1 := mkRow "B" "b@x.com" None 1000 ]} 1)
              (json_response 200 (Entity (models.mkUserData 1 "B" "b@x.com" None 1000)))
              eq_refl eq_refl))))).
Defined.

Lemma validate_default_message str_validator email_validator payload data :
  payload !! "message" = None ->
  schemas.validate str_validator email_validator payload = Some data ->
  schemas.message data = None.
Proof.
  unfold schemas.validate. intros ->.
  destruct (payload !! "name" ≫= str_validator); simpl; [|done].
  destruct (payload !! "email" ≫= email_validator); simpl; [|done].
  by intros [= <-].
Qed.

(** C10. PUT replaces the writable fields as a whole: when the body has no
    [message] key, validation fills in [None], and for an existing record
    and values that can be written (each fits its column, none holds
    U+0000) the PUT answers 200 and the stored message is null, whatever
    it was before. *)
Theorem put_without_message_stores_null
    str_validator email_validator db item_id payload data row :
  payload !! "message" = None ->
  schemas.validate str_validator email_validator payload = Some data ->
  user_data db !! item_id = Some row ->
  accepted data ->
  exists db',
    PUT_data item_id data db
    = (db', Ok (json_response 200
                  (Entity (models.mkUserData item_id (schemas.name data)
                             (schemas.email data) None (row_created_at row)))))
    /\ row_message <$> user_data db' !! item_id = Some None
    /\ models.message <$> query_first db' item_id = Some None.
Proof.
  intros Hkey Hvalid Hrow Hacc.
  pose proof (validate_default_message _ _ _ _ Hkey Hvalid) as Hmsg.
  unfold PUT_data, update_data. rewrite (update_user_data_present _ _ _ _ Hrow).
  apply (fits_accepted item_id data (row_created_at row)) in Hacc. rewrite Hacc.
  simpl. unfold entity, query_first. rewrite Hmsg. eexists. split; [done|]. simpl.
  by rewrite lookup_insert_eq.
Qed.

Lemma put_without_message_stores_null_witness :
  example_payload !! "message" = None
  /\ schemas.validate strict_str strict_str example_payload = Some example_data
  /\ user_data example_db !! 1 = Some (mkRow "A" "a@x.com" (Some "hello") 1000)
  /\ accepted example_data
  /\ exists db',
      PUT_data 1 example_data example_db
      = (db', Ok (json_response 200
                    (Entity (models.mkUserData 1 "B" "b@x.com" None 1000))))
      /\ row_message <$> user_data db' !! 1 = Some None
      /\ models.message <$> query_first db' 1 = Some None.
Proof.
  assert (Hacc : accepted example_data) by (unfold accepted; simpl; split_and!; first [lia|reflexivity]).
  split; [reflexivity|]. split; [reflexivity|]. split; [reflexivity|].
  split; [exact Hacc|].
  exact (put_without_message_stores_null strict_str strict_str example_db 1
           example_payload example_data (mkRow "A" "a@x.com" (Some "hello") 1000)
           eq_refl eq_refl eq_refl Hacc).
Defined.

(** *** Listing *)

#[local] Instance created_at_desc_total : Total created_at_desc.
Proof. intros a b. unfold created_at_desc. lia. Qed.

#[local] Instance created_at_desc_trans : Transitive created_at_desc.
Proof. intros a b c. unfold created_at_desc. lia. Qed.

Lemma order_by_sorted items :
  StronglySorted created_at_desc (order_by_created_at_desc items)
  /\ order_by_created_at_desc items ≡ₚ items.
Proof.
  split; [apply StronglySorted_merge_sort; apply _|apply merge_sort_Permutation].
Qed.

(** A list that is already in strictly descending order of [created_at]
    is what the ordering returns for any arrangement of it. *)
Lemma order_by_strict items sorted :
  items ≡ₚ sorted ->
  StronglySorted (fun a b => models.created_at b < models.created_at a) sorted ->
  order_by_created_at_desc items = sorted.
Proof.
  intros Hperm Hstrict.
  destruct (order_by_sorted items) as [Hsorted Hp].
  assert (Hweak : StronglySorted created_at_desc sorted).
  { clear -Hstrict. induction Hstrict as [|x l _ IH Hx]; constructor; [done|].
    eapply Forall_impl; [exact Hx|]. unfold created_at_desc. simpl. lia. }
  assert (Hnodup : forall x1 x2, x1 ∈ sorted -> x2 ∈ sorted ->
            models.created_at x1 = models.created_at x2 -> x1 = x2).
  { clear -Hstrict. induction Hstrict as [|x l _ IH Hx]; intros x1 x2.
    - by intros ?%elem_of_nil.
    - rewrite Forall_forall in Hx.
      intros [->|H1]%elem_of_cons [->|H2]%elem_of_cons Heq; auto.
      + specialize (Hx _ H2). lia.
      + specialize (Hx _ H1). lia. }
  apply (StronglySorted_unique_strong created_at_desc); [|done|done|].
  - intros x1 x2 H1 H2 H12 H21. apply Hnodup; [|done|].
    + by rewrite <- Hperm, <- Hp.
    + unfold created_at_desc in *. lia.
  - by rewrite Hp.
Qed.

Lemma POST_data_accepted data now db :
  accepted data ->
  POST_data data now db
  = (mkDatabase (<[user_data_id_seq db + 1
                   := row_of (entity (user_data_id_seq db + 1) data now)]>
                   (user_data db))
       (user_data_id_seq db + 1),
     Ok (json_response 201 (Entity (entity (user_data_id_seq db + 1) data now)))).
Proof.
  intros Hacc. unfold POST_data, create_data, crud.create_user_data.
  apply (fits_accepted (user_data_id_seq db + 1) data now) in Hacc.
  unfold entity in Hacc. by rewrite Hacc.
Qed.

Lemma query_all_insert db item_id row :
  user_data db !! item_id = None ->
  query_all (mkDatabase (<[item_id := row]> (user_data db)) (user_data_id_seq db))
  ≡ₚ load item_id row :: query_all db.
Proof.
  intros Hnone. unfold query_all. simpl.
  by rewrite map_to_list_insert by done.
Qed.

(** C6, as the code has it. For a skip and a limit that the database
    takes, from 0 up to 2^63 - 1, GET /data answers 200 with the page
    [skip, skip + limit) of the stored entities in descending order of
    [created_at]: an arrangement of all stored entities, sorted, without
    its first [skip] elements and cut to at most [limit]. After three
    records are created at times t1 < t2 < t3 in an empty table, the
    listing is those records in the order t3, t2, t1. *)
Theorem get_data_ordered_page db skip limit :
  0 ≤ skip < 2 ^ 63 -> 0 ≤ limit < 2 ^ 63 ->
  (exists ordered,
     GET_data skip limit db
     = (db, Ok (json_response 200
                  (Entities (take (Z.to_nat limit) (drop (Z.to_nat skip) ordered)))))
     /\ ordered ≡ₚ query_all db
     /\ StronglySorted created_at_desc ordered
     /\ Z.of_nat (length (take (Z.to_nat limit) (drop (Z.to_nat skip) ordered)))
        ≤ limit)
  /\ (forall d1 d2 d3 t1 t2 t3,
        user_data db = ∅ -> skip = 0 -> 3 ≤ limit ->
        accepted d1 -> accepted d2 -> accepted d3 ->
        t1 < t2 -> t2 < t3 ->
        let db1 := (POST_data d1 t1 db).1 in
        let db2 := (POST_data d2 t2 db1).1 in
        let db3 := (POST_data d3 t3 db2).1 in
        let n := user_data_id_seq db in
        GET_data skip limit db3
        = (db3, Ok (json_response 200
                      (Entities [entity (n + 3) d3 t3; entity (n + 2) d2 t2;
                                 entity (n + 1) d1 t1])))).
Proof.
  intros Hskip Hlimit. split.
  - exists (order_by_created_at_desc (query_all db)).
    destruct (order_by_sorted (query_all db)) as [Hsorted Hperm].
    split_and!; [|done|done|].
    + unfold GET_data, read_data, crud.get_user_data.
      rewrite bool_decide_eq_false_2 by lia. done.
    + rewrite length_take. lia.
  - intros d1 d2 d3 t1 t2 t3 Hempty -> Hlim H1 H2 H3 Ht12 Ht23. cbn zeta.
    rewrite !POST_data_accepted by done. simpl.
    unfold GET_data, read_data, crud.get_user_data.
    rewrite bool_decide_eq_false_2 by lia.
    set (n := user_data_id_seq db).
    set (e1 := entity (n + 1) d1 t1). set (e2 := entity (n + 2) d2 t2).
    set (e3 := entity (n + 3) d3 t3).
    rewrite (order_by_strict _ [e3; e2; e1]).
    + simpl. rewrite take_ge by (simpl; lia). done.
    + unfold query_all. simpl. rewrite Hempty.
      replace (n + 1 + 1) with (n + 2) by lia.
      replace (n + 2 + 1) with (n + 3) by lia.
      rewrite !map_to_list_insert, map_to_list_empty; simpl; [done|..].
      * done.
      * rewrite lookup_insert_ne by lia. done.
      * rewrite !lookup_insert_ne by lia. done.
    + repeat constructor; simpl; lia.
Qed.

Lemma get_data_ordered_page_witness :
  0 ≤ 0 < 2 ^ 63 /\ 0 ≤ 100 < 2 ^ 63 /\ accepted example_data /\ 10 < 20 /\ 20 < 30
  /\ (exists ordered,
        GET_data 0 100 example_db
        = (example_db,
           Ok (json_response 200
                 (Entities (take (Z.to_nat 100) (drop (Z.to_nat 0) ordered)))))
        /\ ordered ≡ₚ query_all example_db
        /\ StronglySorted created_at_desc ordered
        /\ Z.of_nat (length (take (Z.to_nat 100) (drop (Z.to_nat 0) ordered))) ≤ 100)
  /\ GET_data 0 100
       (POST_data example_data 30
          (POST_data example_data 20
             (POST_data example_data 10 (mkDatabase ∅ 0)).1).1).1
     = ((POST_data example_data 30
           (POST_data example_data 20
              (POST_data example_data 10 (mkDatabase ∅ 0)).1).1).1,
        Ok (json_response 200
              (Entities [entity 3 example_data 30; entity 2 example_data 20;
                         entity 1 example_data 10]))).
Proof.
  assert (Hacc : accepted example_data) by (unfold accepted; simpl; split_and!; first [lia|reflexivity]).
  assert (H0 : 0 ≤ 0 < 2 ^ 63) by lia. assert (H100 : 0 ≤ 100 < 2 ^ 63) by lia.
  assert (H12 : 10 < 20) by lia. assert (H23 : 20 < 30) by lia.
  split; [exact H0|]. split; [exact H100|]. split; [exact Hacc|].
  split; [exact H12|]. split; [exact H23|].
  split; [exact (proj1 (get_data_ordered_page example_db 0 100 H0 H100))|].
  exact (proj2 (get_data_ordered_page (mkDatabase ∅ 0) 0 100 H0 H100)
           example_data example_data example_data 10 20 30
           eq_refl eq_refl ltac:(lia) Hacc Hacc Hacc H12 H23).
Defined.

(** C6, as stated, fails: with a negative skip or limit, or with one from
    2^63 on, the query is refused and GET /data does not answer with a
    list. *)
Lemma get_data_negative_page :
  GET_data (-1) 100 example_db = (example_db, Raise DataError)
  /\ GET_data 0 (-1) example_db = (example_db, Raise DataError)
  /\ GET_data 0 (2 ^ 63) example_db = (example_db, Raise DataError)
  /\ GET_data (2 ^ 63) 100 example_db = (example_db, Raise DataError)
  /\ ¬ (exists items,
          (GET_data 0 (-1) example_db).2 = Ok (json_response 200 (Entities items))).
Proof.
  split; [reflexivity|]. split; [reflexivity|]. split; [reflexivity|].
  split; [reflexivity|]. by intros [items [=]].
Qed.

Example listing_newest_first :
  (GET_data 0 2
     (POST_data example_data 30
        (POST_data example_data 20
           (POST_data example_data 10 (mkDatabase ∅ 0)).1).1).1).2
  = Ok (json_response 200
          (Entities [entity 3 example_data 30; entity 2 example_data 20])).
Proof. vm_compute. reflexivity. Qed.

(** * Further properties of the instrumentation *)

(** ** The in-progress gauge over a history *)

Lemma step_IN_PROGRESS m ev :
  IN_PROGRESS (step m ev) = IN_PROGRESS m + (if raised ev then 1 else 0).
Proof.
  destruct ev as [request status start now|request e|statement start now
                 |status start now]; simpl.
  - lia.
  - done.
  - unfold after_cursor_execute.
    destruct (PyStr.split (PyStr.strip statement)); simpl; [lia|].
    case_bool_decide; simpl; lia.
  - unfold scrape, metrics_middleware.
    destruct (metrics_answers status (with_IN_PROGRESS (fun v => v + 1) m))
      as (m' & -> & _ & _ & Hg & _). simpl in *. lia.
Qed.

Lemma failures_snoc trace ev :
  failures (trace ++ [ev]) = failures trace + (if raised ev then 1 else 0).
Proof.
  unfold failures. rewrite filter_app, length_app, filter_cons, filter_nil.
  destruct (raised ev); [rewrite decide_True by done|rewrite decide_False by done];
    simpl; lia.
Qed.

Lemma run_IN_PROGRESS trace m :
  IN_PROGRESS (run trace m) = IN_PROGRESS m + failures trace.
Proof.
  induction trace as [|ev trace IH] using rev_ind; [unfold failures; simpl; lia|].
  rewrite run_snoc, step_IN_PROGRESS, failures_snoc, IH. lia.
Qed.

(** X1. Over any history of served requests, failed requests, statements
    and scrapes, the in-progress gauge moves by exactly the number of
    requests whose handler chain raised: answered requests and scrapes give
    back what they took, each failed request leaves one behind, and
    statements do not touch the gauge. It never goes below its start. *)
Theorem gauge_counts_failed_requests trace m :
  IN_PROGRESS (run trace m) = IN_PROGRESS m + failures trace
  /\ IN_PROGRESS m ≤ IN_PROGRESS (run trace m).
Proof.
  pose proof (run_IN_PROGRESS trace m) as H.
  split; [done|]. rewrite H. unfold failures. lia.
Qed.

(** ** Counters never go down *)

Lemma counter_inc_grows (k k' : list string) (c : gmap (list string) Z) :
  prometheus.counter_value k' c ≤ prometheus.counter_value k' (prometheus.counter_inc k c)
  /\ (is_Some (c !! k') -> is_Some (prometheus.counter_inc k c !! k')).
Proof.
  unfold prometheus.counter_value, prometheus.counter_inc.
  destruct (decide (k = k')) as [->|Hne].
  - rewrite lookup_insert_eq. simpl. split; [lia|eauto].
  - rewrite lookup_insert_ne by done. split; [lia|done].
Qed.

(** X2. A counter series, once it exists, stays, and its value never
    decreases, whatever the service goes through: this holds for every
    series of the request counter and of the query counter. *)
Theorem counters_never_decrease trace m k :
  (prometheus.counter_value k (REQUEST_COUNT m)
     ≤ prometheus.counter_value k (REQUEST_COUNT (run trace m))
   /\ (is_Some (REQUEST_COUNT m !! k) -> is_Some (REQUEST_COUNT (run trace m) !! k)))
  /\ (prometheus.counter_value k (DB_QUERIES_TOTAL m)
        ≤ prometheus.counter_value k (DB_QUERIES_TOTAL (run trace m))
      /\ (is_Some (DB_QUERIES_TOTAL m !! k)
          -> is_Some (DB_QUERIES_TOTAL (run trace m) !! k))).
Proof.
  induction trace as [|ev trace IH] using rev_ind.
  { split; (split; [done|auto]). }
  rewrite run_snoc, step_REQUEST_COUNT, step_DB_QUERIES_TOTAL.
  destruct IH as [[IH1 IH2] [IH3 IH4]]. split.
  - destruct (observed_request ev) as [k0|]; [|done].
    destruct (counter_inc_grows k0 k (REQUEST_COUNT (run trace m))) as [H1 H2].
    split; [lia|auto].
  - destruct (observed_query ev) as [k0|]; [|done].
    destruct (counter_inc_grows k0 k (DB_QUERIES_TOTAL (run trace m))) as [H1 H2].
    split; [lia|auto].
Qed.

(** X3. The request counter has exactly one series for each distinct
    (method, path, status) that was answered: every new path or status
    opens a new series, and nothing ever closes one. *)
Theorem one_series_per_label_tuple trace :
  size (REQUEST_COUNT (run trace initial_metrics))
  = length (remove_dups (omap observed_request trace))
  /\ forall k, is_Some (REQUEST_COUNT (run trace initial_metrics) !! k)
               <-> k ∈ omap observed_request trace.
Proof.
  rewrite run_REQUEST_COUNT. split.
  - rewrite <- length_map_to_list, tally_to_list. by rewrite length_fmap.
  - intros k. split.
    + intros [v Hv]. apply tally_lookup in Hv as [(_ & Hin & _)|(? & Hc & _)]; [done|].
      by rewrite lookup_empty in Hc.
    + intros Hin. eexists. apply tally_lookup. left.
      rewrite lookup_empty. by split_and!.
Qed.

(** ** Histograms and counters move together *)

Lemma new_histogram_well_formed bounds :
  well_formed bounds (prometheus.new_histogram bounds)
  /\ prometheus.h_count (prometheus.new_histogram bounds) = 0.
Proof.
  unfold well_formed, prometheus.h_count. simpl. rewrite length_replicate.
  split; [done|]. f_equal. induction (length bounds) as [|n IH]; simpl; [done|].
  simpl in IH. lia.
Qed.

Lemma observe_buckets_length bounds counts amount :
  length (prometheus.observe_buckets bounds counts amount) = length counts.
Proof.
  revert counts. induction bounds as [|b bs IH]; intros [|c cs]; simpl; try done.
  destruct (amount <=? b); simpl; [done|]. by rewrite IH.
Qed.

Lemma observe_well_formed bounds amount h :
  well_formed bounds h -> well_formed bounds (prometheus.observe bounds amount h).
Proof. unfold well_formed. simpl. by rewrite observe_buckets_length. Qed.

Lemma paired_update bounds k amount c h :
  paired bounds c h ->
  paired bounds (prometheus.counter_inc k c)
    (prometheus.histogram_observe bounds k amount h).
Proof.
  intros Hp k'. unfold prometheus.counter_inc, prometheus.histogram_observe.
  destruct (decide (k = k')) as [<-|Hne].
  - rewrite !lookup_insert_eq. destruct (Hp k) as [Hc Hwf].
    destruct (h !! k) as [s|] eqn:Hs; simpl in *.
    + rewrite <- Hc. simpl.
      destruct (observe_count bounds amount s (Hwf s eq_refl)) as [-> _].
      split; [done|]. intros ? [= <-]. apply observe_well_formed. auto.
    + rewrite <- Hc. simpl.
      destruct (new_histogram_well_formed bounds) as [Hwf0 H0].
      destruct (observe_count bounds amount _ Hwf0) as [-> _]. rewrite H0.
      split; [done|]. intros ? [= <-]. by apply observe_well_formed.
  - rewrite !lookup_insert_ne by done. apply Hp.
Qed.

Lemma step_paired m ev :
  paired REQUEST_LATENCY_buckets (REQUEST_COUNT m) (REQUEST_LATENCY m) ->
  paired DEFAULT_BUCKETS (DB_QUERIES_TOTAL m) (DB_QUERY_DURATION m) ->
  paired REQUEST_LATENCY_buckets (REQUEST_COUNT (step m ev)) (REQUEST_LATENCY (step m ev))
  /\ paired DEFAULT_BUCKETS (DB_QUERIES_TOTAL (step m ev))
       (DB_QUERY_DURATION (step m ev)).
Proof.
  intros Hr Hd.
  destruct ev as [request status start now|request e|statement start now
                 |status start now]; simpl.
  - split; [by apply paired_update|done].
  - done.
  - unfold after_cursor_execute.
    destruct (PyStr.split (PyStr.strip statement)); simpl; [done|].
    case_bool_decide; simpl; [|done]. split; [done|by apply paired_update].
  - unfold scrape, metrics_middleware.
    destruct (metrics_answers status (with_IN_PROGRESS (fun v => v + 1) m))
      as (m' & -> & Hrc & Hrl & _ & Hdb & Hdd). simpl in *.
    rewrite Hrc, Hrl, Hdb, Hdd. split; [by apply paired_update|done].
Qed.

(** X4. After any history from process start, each latency histogram has
    the same series as its counter, and the count of each series equals
    the counter's value: the request histogram agrees with the request
    counter, and the query histogram with the query counter. *)
Theorem histogram_count_matches_counter trace k :
  let m := run trace initial_metrics in
  prometheus.h_count <$> REQUEST_LATENCY m !! k = REQUEST_COUNT m !! k
  /\ prometheus.h_count <$> DB_QUERY_DURATION m !! k = DB_QUERIES_TOTAL m !! k.
Proof.
  cbn zeta.
  assert (H : paired REQUEST_LATENCY_buckets
                (REQUEST_COUNT (run trace initial_metrics))
                (REQUEST_LATENCY (run trace initial_metrics))
              /\ paired DEFAULT_BUCKETS
                   (DB_QUERIES_TOTAL (run trace initial_metrics))
                   (DB_QUERY_DURATION (run trace initial_metrics))).
  { induction trace as [|ev trace IH] using rev_ind.
    - split; intros k'; simpl; rewrite !lookup_empty; done.
    - rewrite run_snoc. destruct IH. by apply step_paired. }
  destruct H as [Hr Hd]. split; [apply Hr|apply Hd].
Qed.

(** ** The request interceptor on the answered path *)

(** X5. When the handler chain answers, the interceptor passes the
    response on unchanged, takes the gauge back down by one, adds one
    request to the series of the request's method, path and status and
    observes the latency there; it touches no other series, and none of
    the query metrics or pool gauges. *)
Theorem metrics_middleware_records_answer request call_next start now m m2 response :
  call_next (with_IN_PROGRESS (fun v => v + 1) m) = (m2, Ok response) ->
  let k := [method request; path request; pretty (status_code response)] in
  let out := metrics_middleware request call_next start now m in
  out.2 = Ok response
  /\ IN_PROGRESS out.1 = IN_PROGRESS m2 - 1
  /\ REQUEST_COUNT out.1 !! k
     = Some (prometheus.counter_value k (REQUEST_COUNT m2) + 1)
  /\ (forall k', k' ≠ k -> REQUEST_COUNT out.1 !! k' = REQUEST_COUNT m2 !! k')
  /\ REQUEST_LATENCY out.1 !! k
     = Some (prometheus.observe REQUEST_LATENCY_buckets (now - start)
               (default (prometheus.new_histogram REQUEST_LATENCY_buckets)
                  (REQUEST_LATENCY m2 !! k)))
  /\ (forall k', k' ≠ k -> REQUEST_LATENCY out.1 !! k' = REQUEST_LATENCY m2 !! k')
  /\ DB_QUERIES_TOTAL out.1 = DB_QUERIES_TOTAL m2
  /\ DB_QUERY_DURATION out.1 = DB_QUERY_DURATION m2
  /\ DB_POOL_CHECKED_OUT out.1 = DB_POOL_CHECKED_OUT m2
  /\ DB_POOL_IDLE out.1 = DB_POOL_IDLE m2
  /\ DB_POOL_WAITERS out.1 = DB_POOL_WAITERS m2.
Proof.
  intros Hnext. cbn zeta. unfold metrics_middleware. rewrite Hnext. simpl.
  unfold prometheus.counter_value, prometheus.counter_inc,
    prometheus.histogram_observe.
  rewrite !lookup_insert_eq. split_and!; try done.
  - intros k' Hk. by rewrite lookup_insert_ne.
  - intros k' Hk. by rewrite lookup_insert_ne.
Qed.

Lemma metrics_middleware_records_answer_witness :
  answer 404 (with_IN_PROGRESS (fun v => v + 1) initial_metrics)
  = (with_IN_PROGRESS (fun v => v + 1) initial_metrics,
     Ok (mkResponse 404 (Detail "") "application/json"))
  /\ REQUEST_COUNT
       (metrics_middleware (mkRequest "PUT" "/data/7") (answer 404) 10 25
          initial_metrics).1 !! ["PUT"; "/data/7"; pretty 404]
     = Some (prometheus.counter_value ["PUT"; "/data/7"; pretty 404]
               (REQUEST_COUNT (with_IN_PROGRESS (fun v => v + 1) initial_metrics)) + 1).
Proof.
  split; [reflexivity|].
  exact (proj1 (proj2 (proj2
           (metrics_middleware_records_answer (mkRequest "PUT" "/data/7")
              (answer 404) 10 25 initial_metrics
              (with_IN_PROGRESS (fun v => v + 1) initial_metrics)
              (mkResponse 404 (Detail "") "application/json") eq_refl)))).
Defined.

(** ** The query interceptor *)

(** X6. Only the leading keyword of a statement matters to the
    interceptor: two statements whose first tokens agree up to letter case
    (or that both have no token) are classified alike, whatever whitespace
    surrounds them and whatever follows the first token. *)
Theorem after_cursor_execute_keyword_only s1 s2 context now m :
  leading_keyword s1 = leading_keyword s2 ->
  after_cursor_execute s1 context now m = after_cursor_execute s2 context now m.
Proof.
  rewrite !leading_keyword_split. unfold after_cursor_execute.
  destruct (PyStr.split (PyStr.strip s1)) as [|t1 ts1],
           (PyStr.split (PyStr.strip s2)) as [|t2 ts2]; simpl; try done.
  by intros [= ->].
Qed.

Lemma after_cursor_execute_keyword_only_witness :
  leading_keyword "select 1" = leading_keyword "
   SeLeCT user_data.id FROM user_data   "
  /\ after_cursor_execute "select 1" (before_cursor_execute 3) 10 initial_metrics
     = after_cursor_execute "
   SeLeCT user_data.id FROM user_data   " (before_cursor_execute 3) 10 initial_metrics.
Proof.
  split; [reflexivity|].
  exact (after_cursor_execute_keyword_only "select 1" "
   SeLeCT user_data.id FROM user_data   " (before_cursor_execute 3) 10
           initial_metrics eq_refl).
Defined.

(** ** The scrape endpoint never fails *)











(** ** The health check *)

Lemma probe_metered start now m :
  after_cursor_execute "SELECT 1" (before_cursor_execute start) now m
  = (with_DB_QUERY_DURATION
       (prometheus.histogram_observe DEFAULT_BUCKETS ["select"] (now - start))
       (with_DB_QUERIES_TOTAL (prometheus.counter_inc ["select"]) m),
     Ok tt).
Proof. reflexivity. Qed.

(** X8. The health check never raises. It answers 200 exactly when the
    probe statement executed; the probe is then metered like any other
    statement, as one more select query, and nothing else in the registry
    moves. When the execution failed it answers 500 with the failure's
    message as the detail and leaves the registry as it was. *)
Theorem health_check_is_metered failure start now m :
  let out := health_check failure start now m in
  (health_status_code out.2 = 200 <-> failure = None)
  /\ (health_status_code out.2 = 500 <-> failure ≠ None)
  /\ (failure = None ->
      prometheus.counter_value ["select"] (DB_QUERIES_TOTAL out.1)
      = prometheus.counter_value ["select"] (DB_QUERIES_TOTAL m) + 1
      /\ (forall k, k ≠ ["select"] ->
            DB_QUERIES_TOTAL out.1 !! k = DB_QUERIES_TOTAL m !! k)
      /\ REQUEST_COUNT out.1 = REQUEST_COUNT m
      /\ IN_PROGRESS out.1 = IN_PROGRESS m)
  /\ (forall detail, failure = Some detail ->
        out.1 = m /\ ("detail", detail) ∈ health_content out.2).
Proof.
  cbn zeta. unfold health_check. destruct failure as [detail|].
  - cbn [fst snd health_status_code health_content]. split_and!; try done.
    intros d Hd. injection Hd as <-. split; [done|]. set_solver.
  - rewrite probe_metered. cbn [fst snd health_status_code health_content].
    split; [done|]. split; [split; [done|]; intros Hne; by destruct Hne|].
    split; [|done]. intros _.
    unfold prometheus.counter_value, prometheus.counter_inc. simpl.
    rewrite lookup_insert_eq. split_and!; try done.
    intros k Hk. by rewrite lookup_insert_ne.
Qed.

(** ** What the buckets of a histogram count *)

Lemma cumulative_lookup acc counts i :
  prometheus.cumulative acc counts !! i
  = (fun _ => acc + foldr Z.add 0 (take (S i) counts)) <$> counts !! i.
Proof.
  revert acc i. induction counts as [|c cs IH]; intros acc i; [done|].
  destruct i as [|i]; simpl.
  - f_equal. destruct cs; simpl; lia.
  - rewrite IH. destruct (cs !! i); simpl; [|done]. f_equal. lia.
Qed.

Lemma observe_buckets_prefix bounds counts amount i b :
  StronglySorted Z.le bounds ->
  length counts = S (length bounds) ->
  bounds !! i = Some b ->
  foldr Z.add 0 (take (S i) (prometheus.observe_buckets bounds counts amount))
  = foldr Z.add 0 (take (S i) counts) + (if bool_decide (amount ≤ b) then 1 else 0).
Proof.
  intros Hsorted. revert counts i.
  induction Hsorted as [|b0 bs Hbs IH Hall]; intros counts i Hlen Hi.
  { by destruct i. }
  destruct counts as [|c cs]; [done|]. simpl in Hlen.
  cbn [prometheus.observe_buckets].
  destruct (Z.leb_spec amount b0) as [Hle|Hgt].
  - assert (amount ≤ b) as Hb.
    { destruct i as [|i]; simplify_eq/=; [done|].
      rewrite Forall_forall in Hall.
      apply list_elem_of_lookup_2, Hall in Hi. lia. }
    rewrite bool_decide_eq_true_2 by done. simpl. lia.
  - destruct i as [|i]; simplify_eq/=.
    + rewrite bool_decide_eq_false_2 by lia. lia.
    + rewrite (IH cs i) by done. lia.
Qed.

Lemma at_most_snoc b amounts a :
  at_most b (amounts ++ [a]) = at_most b amounts + (if bool_decide (a ≤ b) then 1 else 0).
Proof.
  unfold at_most. rewrite filter_app, length_app, filter_cons, filter_nil.
  case_bool_decide; [rewrite decide_True by done|rewrite decide_False by done];
    simpl; lia.
Qed.

Lemma foldr_add_replicate n : foldr Z.add 0 (replicate n 0) = 0.
Proof. induction n as [|n IH]; simpl; [done|]. lia. Qed.

Lemma foldr_add_from z xs : foldr Z.add z xs = foldr Z.add 0 xs + z.
Proof. induction xs as [|x xs IH]; simpl; lia. Qed.

Lemma observed_buckets bounds amounts :
  StronglySorted Z.le bounds ->
  let h := foldl (fun h a => prometheus.observe bounds a h)
             (prometheus.new_histogram bounds) amounts in
  well_formed bounds h
  /\ (forall i b, bounds !! i = Some b ->
        foldr Z.add 0 (take (S i) (prometheus.h_buckets h)) = at_most b amounts)
  /\ prometheus.h_count h = Z.of_nat (length amounts)
  /\ prometheus.h_sum h = foldr Z.add 0 amounts.
Proof.
  intros Hsorted. cbn zeta.
  induction amounts as [|a amounts IH] using rev_ind.
  - simpl. destruct (new_histogram_well_formed bounds) as [Hwf H0].
    split_and!; [done| |done|done].
    intros i b Hi. unfold prometheus.new_histogram. cbn [prometheus.h_buckets].
    by rewrite take_replicate, foldr_add_replicate.
  - rewrite foldl_app. simpl. destruct IH as (Hwf & Hb & Hc & Hs).
    set (h := foldl _ _ amounts) in *. split_and!.
    + by apply observe_well_formed.
    + intros i b Hi. simpl.
      rewrite (observe_buckets_prefix _ _ _ _ _ Hsorted Hwf Hi), (Hb _ _ Hi).
      by rewrite at_most_snoc.
    + destruct (observe_count bounds a h Hwf) as [-> _].
      rewrite Hc, length_app. simpl. lia.
    + simpl. rewrite Hs, foldr_app. simpl. rewrite (foldr_add_from (a + 0)). lia.
Qed.

(** X16. The buckets of the two histograms count what they are labelled
    with. Both lists of bounds are ascending, so after any observations a
    series exposes, under each bound, the number of observations that are
    at most that bound, and under [+Inf] all of them; its count is the
    number of observations and its sum their total. *)
Theorem buckets_count_observations bounds amounts :
  bounds = REQUEST_LATENCY_buckets \/ bounds = DEFAULT_BUCKETS ->
  let h := foldl (fun h a => prometheus.observe bounds a h)
             (prometheus.new_histogram bounds) amounts in
  (forall i b, bounds !! i = Some b ->
     prometheus.cumulative 0 (prometheus.h_buckets h) !! i = Some (at_most b amounts))
  /\ prometheus.cumulative 0 (prometheus.h_buckets h) !! length bounds
     = Some (Z.of_nat (length amounts))
  /\ prometheus.h_count h = Z.of_nat (length amounts)
  /\ prometheus.h_sum h = foldr Z.add 0 amounts.
Proof.
  intros Hbounds.
  assert (Hsorted : StronglySorted Z.le bounds).
  { destruct Hbounds as [-> | ->]; repeat constructor; vm_compute; discriminate. }
  destruct (observed_buckets bounds amounts Hsorted) as (Hwf & Hb & Hc & Hs).
  cbn zeta in *. set (h := foldl _ _ amounts) in *. split_and!; [| |done|done].
  - intros i b Hi. rewrite cumulative_lookup.
    destruct (prometheus.h_buckets h !! i) eqn:Hl; simpl.
    + f_equal. rewrite (Hb _ _ Hi). lia.
    + apply lookup_ge_None in Hl. apply lookup_lt_Some in Hi.
      unfold well_formed in Hwf. lia.
  - rewrite cumulative_lookup.
    destruct (prometheus.h_buckets h !! length bounds) eqn:Hl; simpl.
    + f_equal. rewrite take_ge by (unfold well_formed in Hwf; lia).
      unfold prometheus.h_count in Hc. lia.
    + apply lookup_ge_None in Hl. unfold well_formed in Hwf. lia.
Qed.

Lemma buckets_count_observations_witness :
  (REQUEST_LATENCY_buckets = REQUEST_LATENCY_buckets
   \/ REQUEST_LATENCY_buckets = DEFAULT_BUCKETS)
  /\ prometheus.h_count
       (foldl (fun h a => prometheus.observe REQUEST_LATENCY_buckets a h)
          (prometheus.new_histogram REQUEST_LATENCY_buckets)
          [seconds 2 10; seconds 7 1; seconds 1 100])
     = Z.of_nat (length [seconds 2 10; seconds 7 1; seconds 1 100]).
Proof.
  split; [by left|].
  exact (proj1 (proj2 (proj2
           (buckets_count_observations REQUEST_LATENCY_buckets
              [seconds 2 10; seconds 7 1; seconds 1 100] (or_introl eq_refl))))).
Defined.

Example latency_buckets_example :
  prometheus.cumulative 0
    (prometheus.h_buckets
       (foldl (fun h a => prometheus.observe REQUEST_LATENCY_buckets a h)
          (prometheus.new_histogram REQUEST_LATENCY_buckets)
          [seconds 2 10; seconds 7 1; seconds 1 100]))
  = [1; 2; 2; 2; 2; 2; 3].
Proof. vm_compute. reflexivity. Qed.

(** * Further properties of the CRUD endpoints *)

Lemma fits_entity item_id data created :
  fits (entity item_id data created) = bool_decide (accepted data).
Proof.
  pose proof (fits_accepted item_id data created) as Hiff.
  destruct (fits (entity item_id data created)); symmetry.
  - apply bool_decide_eq_true_2. by apply Hiff.
  - apply bool_decide_eq_false_2. intros Hacc%Hiff. done.
Qed.

Lemma refusal_cases data :
  (refusal_of data = DataError \/ refusal_of data = ValueError)
  /\ (nul_free (schemas.name data) = true ->
      nul_free (schemas.email data) = true ->
      from_option nul_free true (schemas.message data) = true ->
      refusal_of data = DataError).
Proof.
  unfold refusal_of, refusal, nul_free_fields. simpl. split.
  - destruct (_ && _); auto.
  - by intros -> -> ->.
Qed.

Lemma http_exception_handler_refusal ok_status data :
  http_exception_handler ok_status (Raise (refusal_of data)) = Raise (refusal_of data).
Proof. by destruct (refusal_cases data) as [[-> | ->] _]. Qed.

Lemma POST_data_refused data now db :
  ¬ accepted data -> POST_data data now db = (db, Raise (refusal_of data)).
Proof.
  intros Hno. unfold POST_data, create_data, crud.create_user_data.
  change (models.mkUserData (user_data_id_seq db + 1) (schemas.name data)
            (schemas.email data) (schemas.message data) now)
    with (entity (user_data_id_seq db + 1) data now).
  rewrite fits_entity, bool_decide_eq_false_2 by done.
  change (refusal (entity (user_data_id_seq db + 1) data now)) with (refusal_of data).
  by rewrite http_exception_handler_refusal.
Qed.

Lemma PUT_data_present db item_id data row :
  user_data db !! item_id = Some row ->
  PUT_data item_id data db
  = if bool_decide (accepted data) then
      (mkDatabase (<[item_id := row_of (entity item_id data (row_created_at row))]>
                     (user_data db)) (user_data_id_seq db),
       Ok (json_response 200 (Entity (entity item_id data (row_created_at row)))))
    else (db, Raise (refusal_of data)).
Proof.
  intros Hrow. unfold PUT_data, update_data.
  rewrite (update_user_data_present _ _ _ _ Hrow), fits_entity.
  case_bool_decide; [done|].
  change (refusal (entity item_id data (row_created_at row))) with (refusal_of data).
  by rewrite http_exception_handler_refusal.
Qed.

Lemma PUT_data_absent db item_id data :
  user_data db !! item_id = None -> PUT_data item_id data db = (db, Ok not_found).
Proof.
  intros Habsent. unfold PUT_data, update_data, crud.update_user_data, query_first.
  by rewrite Habsent.
Qed.

Lemma DELETE_data_cases db item_id :
  DELETE_data item_id db
  = match user_data db !! item_id with
    | Some row =>
        (mkDatabase (delete item_id (user_data db)) (user_data_id_seq db),
         Ok (json_response 200 (Entity (load item_id row))))
    | None => (db, Ok not_found)
    end.
Proof.
  unfold DELETE_data, delete_data, crud.delete_user_data, query_first.
  by destruct (user_data db !! item_id).
Qed.

Lemma POST_data_cases data now db :
  POST_data data now db
  = if bool_decide (accepted data) then
      (mkDatabase (<[user_data_id_seq db + 1
                     := row_of (entity (user_data_id_seq db + 1) data now)]>
                     (user_data db))
         (user_data_id_seq db + 1),
       Ok (json_response 201 (Entity (entity (user_data_id_seq db + 1) data now))))
    else (db, Raise (refusal_of data)).
Proof.
  case_bool_decide as Hacc; [by apply POST_data_accepted|by apply POST_data_refused].
Qed.

Lemma GET_data_db skip limit db : (GET_data skip limit db).1 = db.
Proof.
  unfold GET_data, read_data. by destruct (crud.get_user_data db skip limit).
Qed.

(** One request keeps the keys within the sequence and never moves the
    sequence back. *)
Lemma crud_step_issued db rq :
  issued db ->
  issued (crud_step db rq) /\ user_data_id_seq db ≤ user_data_id_seq (crud_step db rq).
Proof.
  intros Hdb. destruct rq as [data now|skip limit|item_id data|item_id]; simpl.
  - rewrite POST_data_cases. case_bool_decide; simpl; [|by split].
    split; [|lia]. intros k. simpl.
    destruct (decide (k = user_data_id_seq db + 1)) as [->|Hne]; [lia|].
    rewrite lookup_insert_ne by done. intros Hk%Hdb. lia.
  - by rewrite GET_data_db.
  - destruct (user_data db !! item_id) as [row|] eqn:Hrow.
    + rewrite (PUT_data_present _ _ _ _ Hrow). case_bool_decide; simpl; [|by split].
      split; [|lia]. intros k. simpl.
      destruct (decide (k = item_id)) as [->|Hne]; [intros _; apply Hdb; eauto|].
      rewrite lookup_insert_ne by done. apply Hdb.
    + by rewrite (PUT_data_absent _ _ _ Hrow).
  - rewrite DELETE_data_cases. destruct (user_data db !! item_id) as [row|] eqn:Hrow;
      simpl; [|by split].
    split; [|lia]. intros k. simpl.
    destruct (decide (k = item_id)) as [->|Hne].
    + rewrite lookup_delete_eq. by intros [? [=]].
    + rewrite lookup_delete_ne by done. apply Hdb.
Qed.

(** X9. Ids are never reused. Over any sequence of create, read, update
    and delete requests from the empty database, every stored id is one
    the sequence has given out, so the id of the next created record is
    not in the table, and it differs from every id that was stored at any
    earlier point, deleted or not. *)
Theorem ids_never_reused requests more :
  let db := foldl crud_step empty_db requests in
  let later := foldl crud_step db more in
  issued db
  /\ user_data db !! (user_data_id_seq db + 1) = None
  /\ (forall k, is_Some (user_data db !! k) -> k ≠ user_data_id_seq later + 1).
Proof.
  cbn zeta.
  assert (Hinv : forall rqs db0, issued db0 ->
            issued (foldl crud_step db0 rqs)
            /\ user_data_id_seq db0 ≤ user_data_id_seq (foldl crud_step db0 rqs)).
  { induction rqs as [|rq rqs IH]; intros db0 H0; simpl; [by split|].
    destruct (crud_step_issued db0 rq H0) as [H1 Hle].
    destruct (IH _ H1) as [H2 Hle2]. split; [done|lia]. }
  assert (Hempty : issued empty_db).
  { intros k. unfold empty_db. simpl. rewrite lookup_empty. by intros [? [=]]. }
  destruct (Hinv requests empty_db Hempty) as [Hdb _].
  destruct (Hinv more _ Hdb) as [_ Hle].
  split_and!; [done| |].
  - destruct (user_data _ !! _) eqn:Hk; [|done].
    assert (Hs : is_Some (user_data (foldl crud_step empty_db requests)
                            !! (user_data_id_seq (foldl crud_step empty_db requests) + 1)))
      by eauto.
    apply Hdb in Hs. lia.
  - intros k Hk%Hdb. lia.
Qed.





(** A body whose name holds U+0000 is refused by the driver, and nothing
    is stored. *)
Example put_with_nul_refused :
  PUT_data 1 (schemas.mkUserDataCreate (String (ascii_of_N 0) "B") "b@x.com" None)
    example_db
  = (example_db, Raise ValueError).
Proof. vm_compute. reflexivity. Qed.



(** X13. The last PUT wins. Two PUTs on the same existing record, both
    with values that can be written, leave the database, and answer,
    exactly as the second alone would: nothing of the first body survives,
    and repeating a PUT changes nothing. *)
Theorem put_last_write_wins db item_id d1 d2 row :
  user_data db !! item_id = Some row -> accepted d1 -> accepted d2 ->
  PUT_data item_id d2 (PUT_data item_id d1 db).1 = PUT_data item_id d2 db
  /\ PUT_data item_id d2 (PUT_data item_id d2 db).1 = PUT_data item_id d2 db.
Proof.
  intros Hrow H1 H2.
  assert (Hgen : forall d, accepted d ->
            PUT_data item_id d2 (PUT_data item_id d db).1 = PUT_data item_id d2 db).
  { intros d Hd. rewrite (PUT_data_present db _ d _ Hrow).
    rewrite bool_decide_eq_true_2 by done. cbn [fst].
    erewrite (PUT_data_present (mkDatabase _ _)); [|by apply lookup_insert_eq].
    rewrite (PUT_data_present db _ d2 _ Hrow).
    rewrite bool_decide_eq_true_2 by done. simpl. by rewrite insert_insert_eq. }
  split; by apply Hgen.
Qed.

Lemma put_last_write_wins_witness :
  user_data example_table !! 3 = Some (mkRow "C" "c@x.com" (Some "bye") 2000)
  /\ accepted example_data /\ accepted other_data
  /\ query_first (PUT_data 3 example_data example_table).1 3
     = Some (load 3 (mkRow "B" "b@x.com" None 2000))
  /\ query_first (PUT_data 3 other_data (PUT_data 3 example_data example_table).1).1 3
     = Some (load 3 (mkRow "D" "d@x.com" (Some "changed") 2000))
  /\ PUT_data 3 other_data (PUT_data 3 example_data example_table).1
     = PUT_data 3 other_data example_table.
Proof.
  assert (Hacc : accepted example_data)
    by (unfold accepted; simpl; split_and!; first [lia|reflexivity]).
  assert (Hother : accepted other_data)
    by (unfold accepted; simpl; split_and!; first [lia|reflexivity]).
  split; [reflexivity|]. split; [exact Hacc|]. split; [exact Hother|].
  split; [vm_compute; reflexivity|]. split; [vm_compute; reflexivity|].
  exact (proj1 (put_last_write_wins example_table 3 example_data other_data
                  (mkRow "C" "c@x.com" (Some "bye") 2000) eq_refl Hacc Hother)).
Defined.

(** *** Pages of the listing *)

Lemma strictly_sorted items :
  StronglySorted created_at_desc items ->
  NoDup (models.created_at <$> items) ->
  StronglySorted (fun a b => models.created_at b < models.created_at a) items.
Proof.
  induction 1 as [|x l Hl IH Hx]; intros Hnd; constructor.
  - apply IH. by apply NoDup_cons in Hnd as [_ ?].
  - simpl in Hnd. apply NoDup_cons in Hnd as [Hnot _].
    rewrite Forall_forall in Hx |- *. intros y Hy.
    specialize (Hx y Hy). unfold created_at_desc in Hx.
    assert (models.created_at y ≠ models.created_at x); [|lia].
    intros Heq. apply Hnot. rewrite <- Heq. by apply list_elem_of_fmap_2.
Qed.

Lemma listing_page db skip limit :
  0 ≤ skip < 2 ^ 63 -> 0 ≤ limit < 2 ^ 63 ->
  listing db skip limit
  = take (Z.to_nat limit)
      (drop (Z.to_nat skip) (order_by_created_at_desc (query_all db))).
Proof.
  intros Hs Hl. unfold listing, GET_data, read_data, crud.get_user_data.
  by rewrite bool_decide_eq_false_2 by lia.
Qed.

(** X14. Consecutive pages tile the listing. With the timestamps of the
    stored records all different, a page is fixed by the timestamps alone:
    it is the same cut of every arrangement of the table that is sorted by
    [created_at] descending. On an unchanged table the page of [l1]
    entities at [skip] followed by the page of [l2] entities at
    [skip + l1] is then the page of [l1 + l2] entities at [skip]: paging
    through the listing neither repeats nor skips an entity. This is for
    offsets and limits the database takes, up to [skip + l1 + l2] below
    2^63. *)
Theorem consecutive_pages_tile db skip l1 l2 :
  NoDup (models.created_at <$> query_all db) ->
  0 ≤ skip -> 0 ≤ l1 -> 0 ≤ l2 -> skip + l1 + l2 < 2 ^ 63 ->
  listing db skip l1 ++ listing db (skip + l1) l2 = listing db skip (l1 + l2)
  /\ (forall ordered,
        ordered ≡ₚ query_all db -> StronglySorted created_at_desc ordered ->
        listing db skip l1 = take (Z.to_nat l1) (drop (Z.to_nat skip) ordered)).
Proof.
  intros Hnd Hs H1 H2 Hmax. split.
  - rewrite !listing_page by lia.
    rewrite !Z2Nat.inj_add by lia.
    rewrite <- drop_drop. apply take_take_drop.
  - intros ordered Hperm Hsorted. rewrite listing_page by lia.
    rewrite (order_by_strict (query_all db) ordered); [done|done|].
    apply strictly_sorted; [done|]. by rewrite Hperm.
Qed.

Lemma distinct_example_timestamps :
  NoDup (models.created_at <$> query_all example_table).
Proof. apply (bool_decide_unpack _). vm_compute. exact I. Qed.

Lemma consecutive_pages_tile_witness :
  NoDup (models.created_at <$> query_all example_table)
  /\ 0 ≤ 0 /\ 0 ≤ 1 /\ 0 ≤ 2 /\ 0 + 1 + 2 < 2 ^ 63
  /\ listing example_table 0 1 = [load 2 (mkRow "B" "b@x.com" None 3000)]
  /\ listing example_table (0 + 1) 2
     = [load 3 (mkRow "C" "c@x.com" (Some "bye") 2000);
        load 1 (mkRow "A" "a@x.com" (Some "hello") 1000)]
  /\ listing example_table 0 1 ++ listing example_table (0 + 1) 2
     = listing example_table 0 (1 + 2).
Proof.
  assert (H0 : 0 ≤ 0) by lia. assert (H1 : 0 ≤ 1) by lia.
  assert (H2 : 0 ≤ 2) by lia. assert (Hmax : 0 + 1 + 2 < 2 ^ 63) by lia.
  split; [exact distinct_example_timestamps|]. split; [exact H0|].
  split; [exact H1|]. split; [exact H2|]. split; [exact Hmax|].
  split; [vm_compute; reflexivity|]. split; [vm_compute; reflexivity|].
  exact (proj1 (consecutive_pages_tile example_table 0 1 2
                  distinct_example_timestamps H0 H1 H2 Hmax)).
Defined.

Lemma query_all_ids db : models.id <$> query_all db = (map_to_list (user_data db)).*1.
Proof.
  unfold query_all. rewrite <- list_fmap_compose. by apply list_fmap_ext.
Qed.

Lemma query_all_stored db e :
  e ∈ query_all db -> query_first db (models.id e) = Some e.
Proof.
  unfold query_all. intros ([k r] & -> & Hkr%elem_of_map_to_list)%list_elem_of_fmap.
  unfold query_first. simpl in *. by rewrite Hkr.
Qed.

(** X15. What a page holds. For a skip and a limit the database takes,
    from 0 up to 2^63 - 1, the page has as many entities as are left after
    the skip, up to the limit; every entity on it is a record as stored
    under its id; no id occurs twice; and the page is in descending order
    of [created_at]. *)
Theorem page_contents db skip limit :
  0 ≤ skip < 2 ^ 63 -> 0 ≤ limit < 2 ^ 63 ->
  Z.of_nat (length (listing db skip limit))
  = Z.min limit (Z.max 0 (Z.of_nat (size (user_data db)) - skip))
  /\ (forall e, e ∈ listing db skip limit -> query_first db (models.id e) = Some e)
  /\ NoDup (models.id <$> listing db skip limit)
  /\ StronglySorted created_at_desc (listing db skip limit).
Proof.
  intros Hs Hl. rewrite listing_page by done.
  destruct (order_by_sorted (query_all db)) as [Hsorted Hperm].
  set (L := order_by_created_at_desc (query_all db)) in *.
  assert (Hsub : take (Z.to_nat limit) (drop (Z.to_nat skip) L) `sublist_of` L).
  { etrans; [apply sublist_take|apply sublist_drop]. }
  split_and!.
  - rewrite length_take, length_drop.
    assert (length L = size (user_data db)) as ->.
    { rewrite Hperm. unfold query_all.
      by rewrite length_fmap, length_map_to_list. }
    lia.
  - intros e He. apply query_all_stored. rewrite <- Hperm.
    by eapply elem_of_sublist.
  - eapply sublist_NoDup; [|by apply fmap_sublist].
    rewrite Hperm, query_all_ids. apply NoDup_fst_map_to_list.
  - assert (Hdrop : StronglySorted created_at_desc (drop (Z.to_nat skip) L)).
    { rewrite <- (take_drop (Z.to_nat skip) L) in Hsorted.
      by apply StronglySorted_app_1_r in Hsorted. }
    rewrite <- (take_drop (Z.to_nat limit) (drop (Z.to_nat skip) L)) in Hdrop.
    by apply StronglySorted_app_1_l in Hdrop.
Qed.

Lemma page_contents_witness :
  0 ≤ 1 < 2 ^ 63 /\ 0 ≤ 5 < 2 ^ 63
  /\ listing example_table 1 5
     = [load 3 (mkRow "C" "c@x.com" (Some "bye") 2000);
        load 1 (mkRow "A" "a@x.com" (Some "hello") 1000)]
  /\ Z.of_nat (length (listing example_table 1 5))
     = Z.min 5 (Z.max 0 (Z.of_nat (size (user_data example_table)) - 1))
  /\ (forall e, e ∈ listing example_table 1 5 ->
        query_first example_table (models.id e) = Some e)
  /\ NoDup (models.id <$> listing example_table 1 5)
  /\ StronglySorted created_at_desc (listing example_table 1 5).
Proof.
  assert (H1 : 0 ≤ 1 < 2 ^ 63) by lia. assert (H5 : 0 ≤ 5 < 2 ^ 63) by lia.
  split; [exact H1|]. split; [exact H5|]. split; [vm_compute; reflexivity|].
  exact (page_contents example_table 1 5 H1 H5).
Defined.

(** ** The scrape sees itself *)

(** X17. A scrape is in progress while its exposition is built: after any
    history from process start the exposition reports
    [inprogress_requests] as one more than the number of requests whose
    handler chain raised, and once the scrape is answered the gauge is
    back at that number. *)
Theorem scrape_reports_itself trace status start now :
  let m := run trace initial_metrics in
  mkSample "inprogress_requests" [] (failures trace + 1)
    ∈ exposition (scrape status start now m).2
  /\ IN_PROGRESS (scrape status start now m).1 = failures trace.
Proof.
  cbn zeta. pose proof (run_IN_PROGRESS trace initial_metrics) as Hrun.
  unfold scrape, metrics_middleware.
  destruct (metrics_answers status
              (with_IN_PROGRESS (fun v => v + 1) (run trace initial_metrics)))
    as (m' & -> & _ & _ & Hg & _). simpl in *. split; [|lia].
  unfold generate_latest. rewrite !elem_of_app. right. right. left.
  unfold gauge_samples. apply list_elem_of_singleton. f_equal. lia.
Qed.

(** ** Validation of a request body *)

(** X18. In a request body a [message] that is null and a [message] that
    is missing are the same thing, and a body without [name] or without
    [email] is rejected, whatever the other keys hold. *)
Theorem validate_message_optional str_validator email_validator
    (payload : gmap string schemas.json) :
  schemas.validate str_validator email_validator (<["message" := schemas.JNull]> payload)
  = schemas.validate str_validator email_validator (delete "message" payload)
  /\ (forall data,
        schemas.validate str_validator email_validator payload = Some data ->
        is_Some (payload !! "name") /\ is_Some (payload !! "email")).
Proof.
  split.
  - unfold schemas.validate.
    rewrite !lookup_insert_eq, !lookup_delete_eq.
    by rewrite !lookup_insert_ne, !lookup_delete_ne by done.
  - intros data. unfold schemas.validate.
    destruct (payload !! "name") as [n|]; simpl; [|done].
    destruct (str_validator n); simpl; [|done].
    destruct (payload !! "email") as [e|]; simpl; [|done].
    intros _. eauto.
Qed.

(** ** An update keeps the listing order *)

Lemma query_all_update db item_id data row :
  user_data db !! item_id = Some row ->
  query_all (mkDatabase
               (<[item_id := row_of (entity item_id data (row_created_at row))]>
                  (user_data db))
               (user_data_id_seq db))
  ≡ₚ replaced item_id data <$> query_all db.
Proof.
  intros Hrow. unfold query_all. simpl.
  rewrite <- (insert_delete_eq (user_data db)).
  rewrite <- (insert_delete_id (user_data db) item_id row Hrow) at 2.
  rewrite !map_to_list_insert by apply lookup_delete_eq.
  rewrite !fmap_cons. simpl.
  assert (Hrest : (fun kr : Z * Row => load kr.1 kr.2)
                    <$> map_to_list (delete item_id (user_data db))
                  = replaced item_id data
                    <$> ((fun kr : Z * Row => load kr.1 kr.2)
                         <$> map_to_list (delete item_id (user_data db)))).
  { rewrite <- list_fmap_compose. apply Forall_fmap_ext, Forall_forall.
    intros [k r] Hkr%elem_of_map_to_list. simpl. unfold replaced. simpl.
    rewrite decide_False; [done|]. intros ->. by rewrite lookup_delete_eq in Hkr. }
  rewrite <- Hrest. unfold replaced at 1. simpl. by rewrite decide_True.
Qed.

(** X19. An update does not move a record in the listing. With the
    timestamps of the stored records all different, every page after a
    PUT whose values can be written is the page from before with the
    fields of the body in the updated record: the same ids in the same
    order. This is for a skip and a limit the database takes. *)
Theorem put_keeps_listing_order db item_id data row skip limit :
  user_data db !! item_id = Some row -> accepted data ->
  NoDup (models.created_at <$> query_all db) ->
  0 ≤ skip < 2 ^ 63 -> 0 ≤ limit < 2 ^ 63 ->
  let db' := (PUT_data item_id data db).1 in
  listing db' skip limit = replaced item_id data <$> listing db skip limit
  /\ models.id <$> listing db' skip limit = models.id <$> listing db skip limit.
Proof.
  intros Hrow Hacc Hnd Hs Hl. cbn zeta.
  rewrite (PUT_data_present _ _ _ _ Hrow), bool_decide_eq_true_2 by done.
  cbn [fst]. rewrite !listing_page by done.
  destruct (order_by_sorted (query_all db)) as [Hsorted Hperm].
  set (L := order_by_created_at_desc (query_all db)) in *.
  assert (Horder :
    order_by_created_at_desc
      (query_all (mkDatabase
                    (<[item_id := row_of (entity item_id data (row_created_at row))]>
                       (user_data db))
                    (user_data_id_seq db)))
    = replaced item_id data <$> L).
  { apply order_by_strict.
    - by rewrite (query_all_update _ _ _ _ Hrow), Hperm.
    - apply (StronglySorted_fmap _
               (fun a b => models.created_at b < models.created_at a)
               (fun a b => models.created_at b < models.created_at a)).
      + intros x y Hxy. unfold replaced. by repeat case_decide.
      + apply strictly_sorted; [done|]. by rewrite Hperm. }
  rewrite Horder, <- fmap_drop, <- fmap_take. split; [done|].
  rewrite <- list_fmap_compose. apply Forall_fmap_ext, Forall_forall.
  intros e _. simpl. unfold replaced. by case_decide.
Qed.

Lemma put_keeps_listing_order_witness :
  user_data example_table !! 3 = Some (mkRow "C" "c@x.com" (Some "bye") 2000)
  /\ accepted other_data
  /\ NoDup (models.created_at <$> query_all example_table)
  /\ 0 ≤ 0 < 2 ^ 63 /\ 0 ≤ 10 < 2 ^ 63
  /\ models.id <$> listing example_table 0 10 = [2; 3; 1]
  /\ listing (PUT_data 3 other_data example_table).1 0 10
     = [load 2 (mkRow "B" "b@x.com" None 3000);
        load 3 (mkRow "D" "d@x.com" (Some "changed") 2000);
        load 1 (mkRow "A" "a@x.com" (Some "hello") 1000)]
  /\ listing (PUT_data 3 other_data example_table).1 0 10
     = replaced 3 other_data <$> listing example_table 0 10
  /\ models.id <$> listing (PUT_data 3 other_data example_table).1 0 10
     = models.id <$> listing example_table 0 10.
Proof.
  assert (Hacc : accepted other_data)
    by (unfold accepted; simpl; split_and!; first [lia|reflexivity]).
  assert (H0 : 0 ≤ 0 < 2 ^ 63) by lia. assert (H10 : 0 ≤ 10 < 2 ^ 63) by lia.
  split; [reflexivity|]. split; [exact Hacc|].
  split; [exact distinct_example_timestamps|].
  split; [exact H0|]. split; [exact H10|].
  split; [vm_compute; reflexivity|]. split; [vm_compute; reflexivity|].
  exact (put_keeps_listing_order example_table 3 other_data
           (mkRow "C" "c@x.com" (Some "bye") 2000) 0 10
           eq_refl Hacc distinct_example_timestamps H0 H10).
Defined.
